(** * news_summarizer.py: shallow embedding and verified properties

    The program is a linear batch pipeline: fetch RSS feeds, extract the
    article text, cut it into 1000-character chunks, summarize every chunk,
    classify the sentiment of the joined summary.  The embedding below
    follows [src/news_summarizer.py] function by function.

    - Python [str] is a list of Unicode code points.
    - Python exceptions are the [Raise] outcome of an error monad; every
      exception the program can meet derives from [Exception].
    - The network and the two pretrained pipelines are the outside world:
      state transformers over an abstract world state [W].  Every call to
      them, and every log record, is written to an event trace. *)

From Stdlib Require Import Ascii String.
From Stdlib Require Import ZArith List Lia Bool Permutation.
From Stdlib Require Import Floats.PrimFloat Floats.FloatOps Floats.SpecFloat.
From Stdlib Require Import Numbers.Cyclic.Int63.Uint63.
Import ListNotations.

Set Implicit Arguments.
Set Warnings "-register-all,-inexact-float".

(** ** Strings *)

Definition char := N.
Definition str := list char.
Definition bytes := list Byte.byte.

(** A string literal of the source, as code points. *)
Definition py (s : string) : str := map N_of_ascii (list_ascii_of_string s).
Arguments py s%_string.

Definition space : char := 32%N.

(** [str.isspace] on one code point, which is also what the regular
    expression class [\s] matches on [str] patterns. *)
Definition isspace (c : char) : bool :=
  ((9 <=? c) && (c <=? 13) || (28 <=? c) && (c <=? 32)
   || (c =? 133) || (c =? 160) || (c =? 5760)
   || (8192 <=? c) && (c <=? 8202)
   || (c =? 8232) || (c =? 8233) || (c =? 8239) || (c =? 8287)
   || (c =? 12288))%N.

Fixpoint str_eqb (a b : str) : bool :=
  match a, b with
  | [], [] => true
  | x :: a', y :: b' => N.eqb x y && str_eqb a' b'
  | _, _ => false
  end.

(** Truth value of a string: [if text], [if link.text]. *)
Definition truthy (s : str) : bool :=
  match s with [] => false | _ :: _ => true end.

(** [s.split()]: the maximal runs of non-whitespace, in order.  [word]
    holds the characters of the current run, last one first. *)
Definition flush (word : str) (words : list str) : list str :=
  match word with [] => words | _ :: _ => rev word :: words end.

Fixpoint split_ws (word : str) (s : str) : list str :=
  match s with
  | [] => flush word []
  | c :: rest =>
      if isspace c then flush word (split_ws [] rest)
      else split_ws (c :: word) rest
  end.

Definition split (s : str) : list str := split_ws [] s.

(** [sep.join(parts)] *)
Fixpoint join (sep : str) (parts : list str) : str :=
  match parts with
  | [] => []
  | [p] => p
  | p :: rest => p ++ sep ++ join sep rest
  end.

(** [re.sub(r'\s+', ' ', s)]: every maximal whitespace run becomes one
    space.  [in_run] tells that the previous character was whitespace. *)
Fixpoint collapse_ws (in_run : bool) (s : str) : str :=
  match s with
  | [] => []
  | c :: rest =>
      if isspace c
      then (if in_run then collapse_ws true rest
            else space :: collapse_ws true rest)
      else c :: collapse_ws false rest
  end.

Definition re_sub_ws (s : str) : str := collapse_ws false s.

Fixpoint lstrip (s : str) : str :=
  match s with
  | [] => []
  | c :: rest => if isspace c then lstrip rest else s
  end.

Definition strip (s : str) : str := rev (lstrip (rev (lstrip s))).

(** ** Slices and ranges *)

(** [xs[:n]] for any integer [n]; a negative [n] counts from the end. *)
Definition slice_to {A} (n : Z) (xs : list A) : list A :=
  if (0 <=? n)%Z then firstn (Z.to_nat n) xs
  else firstn (length xs - Z.to_nat (- n)) xs.

(** [xs[i:j]] for [0 <= i <= j]. *)
Definition slice {A} (xs : list A) (i j : nat) : list A :=
  firstn (j - i) (skipn i xs).

(** [range(start, stop, step)] for a positive step: count up from [start]
    while below [stop].  No more than [stop - start] values exist. *)
Fixpoint range_from (fuel i stop step : nat) : list nat :=
  match fuel with
  | O => []
  | S fuel' =>
      if i <? stop then i :: range_from fuel' (i + step) stop step else []
  end.

Definition range (start stop step : nat) : list nat :=
  range_from (stop - start) start stop step.

(** The number of windows of [size] items that cover [n] items. *)
Definition ceil_div (n size : nat) : nat := (n + size - 1) / size.

(** Line 118: [[text[i:i+1000] for i in range(0, len(text), 1000)]]. *)
Definition chunk_size : nat := 1000.

Definition chunks_of {A} (text : list A) : list (list A) :=
  map (fun i => slice text i (i + chunk_size))
      (range 0 (length text) chunk_size).

(** ** Exceptions *)

(** The exceptions of the program.  [External] stands for whatever a
    collaborator raises (a network error, a timeout, an HTTP error status, a
    parse error, a model error).  All of them derive from [Exception], so
    every [except Exception] clause catches every one of them. *)
Inductive exn : Type :=
| IndexError
| ValueError
| OverflowError
| External (detail : str).

Inductive result (A : Type) : Type :=
| Ok (a : A)
| Raise (e : exn).
Arguments Raise {A} e.

(** [xs[0]] *)
Definition first_item {A} (xs : list A) : result A :=
  match xs with
  | [] => Raise IndexError
  | x :: _ => Ok x
  end.

(** ** Summary length bounds (lines 123-126) *)

(** The product [input_len * 0.5] converts the integer to a binary64
    float; the conversion is exact below 2^53. *)
Definition float_of_nat (n : nat) : float :=
  PrimFloat.of_uint63 (Uint63.of_Z (Z.of_nat n)).

(** [int(x)] truncates toward zero; it raises on an infinity or a NaN. *)
Definition int_of_float (x : float) : result Z :=
  match Prim2SF x with
  | S754_zero _ => Ok 0%Z
  | S754_finite s m e =>
      let a := if (0 <=? e)%Z then (Z.pos m * 2 ^ e)%Z
               else (Z.pos m / 2 ^ (- e))%Z in
      Ok (if s then (- a)%Z else a)
  | S754_infinity _ => Raise OverflowError
  | S754_nan => Raise ValueError
  end.

Definition float_half : float := 0x1p-1%float.
(** The literal [0.2] is the binary64 closest to one fifth. *)
Definition float_fifth : float := 0x1.999999999999ap-3%float.

Definition scaled (input_len : nat) (factor : float) : result Z :=
  int_of_float (float_of_nat input_len * factor)%float.

Definition result_map {A B} (f : A -> B) (r : result A) : result B :=
  match r with
  | Ok a => Ok (f a)
  | Raise e => Raise e
  end.

(** [max_len = max(5, int(input_len * 0.5))] *)
Definition max_len_of (input_len : nat) : result Z :=
  result_map (Z.max 5) (scaled input_len float_half).

(** [min_len = max(3, int(input_len * 0.2))] *)
Definition min_len_of (input_len : nat) : result Z :=
  result_map (Z.max 3) (scaled input_len float_fifth).

(** ** Data model *)

(** An HTTP response object: what its method [raise_for_status()] does,
    and its attributes [content] and [text]. *)
Record Response : Type := {
  raise_for_status : result unit;
  content : bytes;
  text : str
}.

(** An [xml.etree.ElementTree.Element]. *)
Inductive Element : Type :=
| Elem (tag : str) (etext : option str) (children : list Element).

Definition element_tag (e : Element) : str :=
  match e with Elem t _ _ => t end.
Definition element_text (e : Element) : option str :=
  match e with Elem _ t _ => t end.
Definition element_children (e : Element) : list Element :=
  match e with Elem _ _ cs => cs end.

(** [e.iter()]: the element and all its descendants, in document order. *)
Fixpoint iter (e : Element) : list Element :=
  match e with
  | Elem _ _ cs => e :: flat_map iter cs
  end.

Definition has_tag (t : str) (e : Element) : bool :=
  str_eqb (element_tag e) t.

(** [root.findall('.//' + t)]: every descendant of [root] with tag [t], in
    document order; [root] itself is not a candidate. *)
Definition findall_descendants (t : str) (root : Element) : list Element :=
  filter (has_tag t) (flat_map iter (element_children root)).

(** [item.find(t)]: the first child with tag [t], or [None]. *)
Definition find_child (t : str) (e : Element) : option Element :=
  find (has_tag t) (element_children e).

(** A parsed HTML document: tags and the strings between them. *)
Inductive Node : Type :=
| Tag (name : str) (contents : list Node)
| NavigableString (s : str).

Fixpoint self_and_descendants (n : Node) : list Node :=
  match n with
  | Tag _ cs => n :: flat_map self_and_descendants cs
  | NavigableString _ => [n]
  end.

Definition node_contents (n : Node) : list Node :=
  match n with
  | Tag _ cs => cs
  | NavigableString _ => []
  end.

Definition is_tag (name : str) (n : Node) : bool :=
  match n with
  | Tag name' _ => str_eqb name' name
  | NavigableString _ => false
  end.

(** [soup.find_all(name)]: the descendant tags of that name. *)
Definition find_all (name : str) (soup : Node) : list Node :=
  filter (is_tag name) (flat_map self_and_descendants (node_contents soup)).

(** [p.get_text()]: all strings below the tag, concatenated. *)
Fixpoint get_text (n : Node) : str :=
  match n with
  | Tag _ cs => flat_map get_text cs
  | NavigableString s => s
  end.

(** A candidate returned by the summarization pipeline, a dict with the
    key ['summary_text']. *)
Record SummaryCandidate : Type := { summary_text : str }.

(** A candidate returned by the sentiment pipeline, a dict with the key
    ['label'] (its score is never read). *)
Record SentimentCandidate : Type := { label : str }.

(** One element of the list [process_articles] returns. *)
Record SummaryResult : Type := { summary : str; sentiment : str }.

(** A Python dict with string keys: the items in insertion order. *)
Definition dict (V : Type) := list (str * V).

Definition keys {V} (d : dict V) : list str := map fst d.
Definition values {V} (d : dict V) : list V := map snd d.

(** [d[k] = v] *)
Fixpoint dict_set {V} (d : dict V) (k : str) (v : V) : dict V :=
  match d with
  | [] => [(k, v)]
  | (k', v') :: d' =>
      if str_eqb k' k then (k', v) :: d' else (k', v') :: dict_set d' k v
  end.

Fixpoint dict_get {V} (d : dict V) (k : str) : option V :=
  match d with
  | [] => None
  | (k', v') :: d' => if str_eqb k' k then Some v' else dict_get d' k
  end.

(** The lists of a dict hold no empty string. *)
Definition links_nonempty (d : dict (list str)) : Prop :=
  Forall (fun kv => Forall (fun url => url <> []) (snd kv)) d.

(** ** Events *)

Inductive LogMsg : Type :=
| FoundArticles (count : nat) (source : str)
| ErrorFetching (source : str) (e : exn)
| SummarizationError (e : exn)
| ErrorProcessing (url : str) (e : exn)
| ErrorExtracting (url : str) (e : exn).

(** What the program does to the outside world, call by call, each call
    with its arguments and with what came back. *)
Inductive Event : Type :=
| Get (url : str) (headers : dict str) (timeout : Z) (r : result Response)
| Summarize (chunk : str) (max_length min_length : Z) (do_sample : bool)
            (r : result (list SummaryCandidate))
| Classify (input : str) (r : result (list SentimentCandidate))
| LogInfo (m : LogMsg)
| LogError (m : LogMsg).

(** ** The monad of the program: world state, exceptions, event trace *)

(** A finished computation: how it ended, the world it left behind, and
    the events it produced, oldest first. *)
Record Run (W A : Type) : Type := {
  outcome : result A;
  after : W;
  trace : list Event
}.

Definition M (W A : Type) : Type := W -> Run W A.

Section Monad.
Context {W : Type}.

Definition ret {A} (a : A) : M W A :=
  fun w => {| outcome := Ok a; after := w; trace := [] |}.

Definition lift {A} (r : result A) : M W A :=
  fun w => {| outcome := r; after := w; trace := [] |}.

Definition bind {A B} (m : M W A) (k : A -> M W B) : M W B :=
  fun w =>
    let r := m w in
    match outcome r with
    | Ok a =>
        let r' := k a (after r) in
        {| outcome := outcome r'; after := after r';
           trace := trace r ++ trace r' |}
    | Raise e => {| outcome := Raise e; after := after r; trace := trace r |}
    end.

(** [try: body / except Exception as e: handler] *)
Definition try_except {A} (body : M W A) (handler : exn -> M W A) : M W A :=
  fun w =>
    let r := body w in
    match outcome r with
    | Ok a => r
    | Raise e =>
        let r' := handler e (after r) in
        {| outcome := outcome r'; after := after r';
           trace := trace r ++ trace r' |}
    end.

Definition emit (ev : Event) : M W unit :=
  fun w => {| outcome := Ok tt; after := w; trace := [ev] |}.

(** A call to a collaborator, recorded with what it returned. *)
Definition call {A} (f : W -> result A * W) (ev : result A -> Event)
  : M W A :=
  fun w =>
    let (r, w') := f w in
    {| outcome := r; after := w'; trace := [ev r] |}.

(** [for x in xs: body], where the body updates the loop's variables
    [s]; a [continue] is a body that ends early. *)
Fixpoint for_each {A S} (xs : list A) (body : S -> A -> M W S) (s : S)
  : M W S :=
  match xs with
  | [] => ret s
  | x :: xs' => bind (body s x) (for_each xs' body)
  end.

(** A computation that ends normally from every world. *)
Definition never_raises {A} (m : M W A) : Prop :=
  forall w, exists a, outcome (m w) = Ok a.

(** A computation all of whose events satisfy [P]. *)
Definition emits_only (P : Event -> Prop) {A} (m : M W A) : Prop :=
  forall w, Forall P (trace (m w)).
End Monad.

Notation "x <- m ;; k" := (bind m (fun x => k))
  (at level 61, m at next level, right associativity).
Notation "m ;;; k" := (bind m (fun _ => k))
  (at level 61, right associativity).

(** ** The outside world *)

(** The libraries the program calls.  Only [requests.get] talks to the
    world; the two parsers are functions of their input. *)
Record Platform (W : Type) : Type := {
  requests_get : str -> dict str -> Z -> W -> result Response * W;
  ET_fromstring : bytes -> result Element;
  BeautifulSoup : str -> result Node
}.

(** The object [self]: the two pipelines built by [__init__]. *)
Record NewsSummarizer (W : Type) : Type := {
  summarizer :
    str -> Z -> Z -> bool -> W -> result (list SummaryCandidate) * W;
  sentiment_analyzer : str -> W -> result (list SentimentCandidate) * W
}.

(** ** The program *)

(** Lines 43-48. *)
Definition get_news_sources : dict str :=
  [ (py "RSS Feed World",
     py "https://moxie.foxnews.com/google-publisher/world.xml");
    (py "RSS Feed Politics",
     py "https://moxie.foxnews.com/google-publisher/politics.xml");
    (py "RSS Feed Science",
     py "https://moxie.foxnews.com/google-publisher/science.xml");
    (py "RSS Feed Tech",
     py "https://moxie.foxnews.com/google-publisher/tech.xml") ].

(** Lines 79-82. *)
Definition feed_headers : dict str :=
  [ (py "User-Agent",
     py "Mozilla/5.0 (Windows NT 10.0; Win64; x64) AppleWebKit/537.36");
    (py "Accept", py "application/xml,text/xml,*/*;q=0.9") ].

Definition article_headers : dict str :=
  [ (py "User-Agent", py "Mozilla/5.0") ].

(** Lines 92-94, the body of the loop over the items. *)
Definition add_link (article_urls : list str) (item : Element) : list str :=
  match find_child (py "link") item with
  | Some link =>
      match element_text link with
      | Some t => if truthy t then article_urls ++ [t] else article_urls
      | None => article_urls
      end
  | None => article_urls
  end.

(** An item without a usable link: no [link] child, a [link] child without
    text, or one whose text is empty. *)
Definition no_usable_link (item : Element) : Prop :=
  match find_child (py "link") item with
  | None => True
  | Some link =>
      match element_text link with
      | None => True
      | Some t => t = []
      end
  end.

(** Lines 90-94. *)
Definition item_links (items : list Element) : list str :=
  fold_left add_link items [].

Section Program.
Context {W : Type} (plat : Platform W) (self : NewsSummarizer W).

(** Lines 85-96, the [try] block of [_fetch_source]. *)
Definition fetch_source_body (feed_url : str) : M W (list str) :=
  response <- call (requests_get plat feed_url feed_headers 15)
                   (Get feed_url feed_headers 15) ;;
  lift (raise_for_status response) ;;;
  root <- lift (ET_fromstring plat (content response)) ;;
  ret (item_links (findall_descendants (py "item") root)).

(** Lines 75-100. *)
Definition _fetch_source (source_name feed_url : str) : M W (list str) :=
  try_except
    (fetch_source_body feed_url)
    (fun e => emit (LogError (ErrorFetching source_name e)) ;;; ret []).

(** Lines 64-71, the body of the loop over the completed futures. *)
Definition collect (articles : dict (list str)) (task : str * str)
  : M W (dict (list str)) :=
  let (source, feed_url) := task in
  try_except
    (source_articles <- _fetch_source source feed_url ;;
     let articles := dict_set articles source source_articles in
     emit (LogInfo (FoundArticles (length source_articles) source)) ;;;
     ret articles)
    (fun e => emit (LogError (ErrorFetching source e)) ;;; ret articles).

(** Lines 56-73 for a given dict [sources].  One worker per source runs
    [_fetch_source]; [order] is the order in which the futures complete,
    a permutation of the items of [sources], and the requests reach the
    world in that order.  An executor refuses a pool of size zero. *)
Definition fetch_articles_from (sources : dict str)
    (order : list (str * str)) : M W (dict (list str)) :=
  if Nat.eqb (length sources) 0 then lift (Raise ValueError)
  else for_each order collect [].

(** Lines 50-73. *)
Definition fetch_articles (order : list (str * str))
  : M W (dict (list str)) :=
  fetch_articles_from get_news_sources order.

(** Lines 162-170, the [try] block of [_extract_article_text]. *)
Definition extract_body (url : str) : M W str :=
  response <- call (requests_get plat url article_headers 15)
                   (Get url article_headers 15) ;;
  lift (raise_for_status response) ;;;
  soup <- lift (BeautifulSoup plat (text response)) ;;
  let paragraphs :=
    filter truthy (map get_text (find_all (py "p") soup)) in
  let article_text := join (py " ") paragraphs in
  let article_text := strip (re_sub_ws article_text) in
  ret article_text.

(** Lines 157-174. *)
Definition _extract_article_text (url : str) : M W str :=
  try_except
    (extract_body url)
    (fun e => emit (LogError (ErrorExtracting url e)) ;;; ret []).

(** A step of the extraction fails in the world [w]: the request (a
    network error, a timeout), the status check, or the HTML parser. *)
Definition extraction_fails (url : str) (w : W) : Prop :=
  match fst (requests_get plat url article_headers 15 w) with
  | Raise _ => True
  | Ok response =>
      match raise_for_status response with
      | Raise _ => True
      | Ok _ =>
          match BeautifulSoup plat (text response) with
          | Raise _ => True
          | Ok _ => False
          end
      end
  end.

(** A step of the feed fetch fails in the world [w]: the request, the
    status check, or the XML parser. *)
Definition fetch_fails (feed_url : str) (w : W) : Prop :=
  match fst (requests_get plat feed_url feed_headers 15 w) with
  | Raise _ => True
  | Ok response =>
      match raise_for_status response with
      | Raise _ => True
      | Ok _ =>
          match ET_fromstring plat (content response) with
          | Raise _ => True
          | Ok _ => False
          end
      end
  end.

(** Line 114: the test that skips an article. *)
Definition too_short (text : str) : bool :=
  negb (truthy text) || (length (split text) <? 50).

(** Lines 122-137, the body of the loop over the chunks. *)
Definition summarize_chunk (summaries : list str) (chunk : str)
  : M W (list str) :=
  try_except
    (let input_len := length (split chunk) in
     max_len <- lift (max_len_of input_len) ;;
     min_len <- lift (min_len_of input_len) ;;
     candidates <- call (summarizer self chunk max_len min_len false)
                        (Summarize chunk max_len min_len false) ;;
     candidate <- lift (first_item candidates) ;;
     let s := summary_text candidate in
     ret (summaries ++ [s]))
    (fun e => emit (LogError (SummarizationError e)) ;;; ret summaries).

(** Line 144: the argument of the sentiment pipeline. *)
Definition sentiment_input (final_summary : str) : str :=
  slice_to 500 final_summary.

(** Lines 139-149, what follows the loop over the chunks. *)
Definition finish_article (results : list SummaryResult)
    (summaries : list str) : M W (list SummaryResult) :=
  match summaries with
  | [] => ret results
  | _ :: _ =>
      let final_summary := join (py " ") summaries in
      candidates <- call (sentiment_analyzer self
                            (sentiment_input final_summary))
                         (Classify (sentiment_input final_summary)) ;;
      top <- lift (first_item candidates) ;;
      ret (results ++
             [{| summary := final_summary; sentiment := label top |}])
  end.

(** Lines 112-153, the body of the loop over the links. *)
Definition process_article (results : list SummaryResult) (url : str)
  : M W (list SummaryResult) :=
  try_except
    (text <- _extract_article_text url ;;
     if too_short text then ret results
     else
       let chunks := chunks_of text in
       summaries <- for_each chunks summarize_chunk [] ;;
       finish_article results summaries)
    (fun e => emit (LogError (ErrorProcessing url e)) ;;; ret results).

(** Lines 111-153, the loop over [urls[:max_articles]]. *)
Definition process_urls (max_articles : Z)
    (results : list SummaryResult) (urls : list str)
  : M W (list SummaryResult) :=
  for_each (slice_to max_articles urls) process_article results.

(** Lines 108-155, for the dict [articles] that was fetched. *)
Definition process_fetched (articles : dict (list str))
    (max_articles : Z) : M W (list SummaryResult) :=
  for_each (values articles) (process_urls max_articles) [].

Definition default_max_articles : Z := 5.

(** Lines 102-155; [None] is a call that leaves [max_articles] out. *)
Definition process_articles (order : list (str * str))
    (max_articles : option Z) : M W (list SummaryResult) :=
  let max_articles :=
    match max_articles with
    | Some n => n
    | None => default_max_articles
    end in
  articles <- fetch_articles order ;;
  process_fetched articles max_articles.
End Program.

(** ** The specification's arithmetic *)

(** [round(n / d)] for a positive [d], as Python rounds: to the nearest
    integer, a tie to the even one. *)
Definition round_div (n d : Z) : Z :=
  let q := (n / d)%Z in
  let r := (n mod d)%Z in
  if (2 * r <? d)%Z then q
  else if (d <? 2 * r)%Z then (q + 1)%Z
  else if Z.even q then q else (q + 1)%Z.

(** [max(5, round(0.5 * w))] and [max(3, round(0.2 * w))]. *)
Definition rounded_max_length (w : nat) : Z :=
  Z.max 5 (round_div (Z.of_nat w) 2).
Definition rounded_min_length (w : nat) : Z :=
  Z.max 3 (round_div (Z.of_nat w) 5).

(** [max(5, floor(w / 2))] and [max(3, floor(w / 5))]. *)
Definition floored_max_length (w : nat) : Z := Z.max 5 (Z.of_nat w / 2).
Definition floored_min_length (w : nat) : Z := Z.max 3 (Z.of_nat w / 5).

Definition result_is (r : result Z) (z : Z) : bool :=
  match r with
  | Ok a => Z.eqb a z
  | Raise _ => false
  end.

(** ** Reading a trace *)

(** The URLs requested, in order. *)
Definition requested (ev : Event) : list str :=
  match ev with
  | Get url _ _ _ => [url]
  | _ => []
  end.
Definition requests (tr : list Event) : list str := flat_map requested tr.

(** The chunks handed to the summarizer, in order. *)
Definition summarized_chunk (ev : Event) : list str :=
  match ev with
  | Summarize chunk _ _ _ _ => [chunk]
  | _ => []
  end.
Definition summarized (tr : list Event) : list str :=
  flat_map summarized_chunk tr.

(** The texts handed to the sentiment pipeline, in order. *)
Definition classified_input (ev : Event) : list str :=
  match ev with
  | Classify input _ => [input]
  | _ => []
  end.
Definition classified (tr : list Event) : list str :=
  flat_map classified_input tr.

(** A pipeline call yields no first candidate: it raised, or it returned
    an empty list, whose item 0 raises. *)
Definition no_candidate {A} (r : result (list A)) : Prop :=
  match r with
  | Ok (_ :: _) => False
  | _ => True
  end.

Definition summarize_failed (ev : Event) : Prop :=
  match ev with
  | Summarize _ _ _ _ r => no_candidate r
  | _ => True
  end.

(** The bounds of a summarizer call, as the code computes them and as the
    specification words them. *)
Definition bounds_floored (ev : Event) : Prop :=
  match ev with
  | Summarize chunk max_length min_length _ _ =>
      max_length = floored_max_length (length (split chunk))
      /\ min_length = floored_min_length (length (split chunk))
  | _ => True
  end.

Definition bounds_rounded (ev : Event) : Prop :=
  match ev with
  | Summarize chunk max_length min_length _ _ =>
      max_length = rounded_max_length (length (split chunk))
      /\ min_length = rounded_min_length (length (split chunk))
  | _ => True
  end.

Definition classify_input_bounded (ev : Event) : Prop :=
  match ev with
  | Classify input _ => length input <= 500
  | _ => True
  end.

(** ** A small world to run the program in *)

Module Demo.
(** The state of the world: how many requests and model calls it has
    served. *)
Definition world : Type := nat.

(** A text of [n] words. *)
Definition words (n : nat) : str := join (py " ") (repeat (py "word") n).

Definition page (text : str) : Node :=
  Tag (py "[document]")
    [Tag (py "html")
       [Tag (py "body")
          [Tag (py "h1") [NavigableString (py "Headline")];
           Tag (py "p") [NavigableString text]]]].

Definition feed (links : list str) : Element :=
  Elem (py "rss") None
    [Elem (py "channel") None
       (map (fun l => Elem (py "item") None
                        [Elem (py "title") (Some (py "A title")) [];
                         Elem (py "link") (Some l) []])
            links)].

Definition response : Response :=
  {| raise_for_status := Ok tt; content := []; text := [] |}.

(** A network that answers every request, a feed with the given links
    and articles with the given text. *)
Definition online (links : list str) (article : str) : Platform world :=
  {| requests_get := fun _ _ _ w => (Ok response, S w);
     ET_fromstring := fun _ => Ok (feed links);
     BeautifulSoup := fun _ => Ok (page article) |}.

(** A network on which every request times out. *)
Definition offline : Platform world :=
  {| requests_get := fun _ _ _ w => (Raise (External (py "timeout")), S w);
     ET_fromstring := fun _ => Ok (feed []);
     BeautifulSoup := fun _ => Ok (page []) |}.

(** Pipelines that answer every call the same way. *)
Definition models (summaries : result (list SummaryCandidate))
    (sentiments : result (list SentimentCandidate))
  : NewsSummarizer world :=
  {| summarizer := fun _ _ _ _ w => (summaries, S w);
     sentiment_analyzer := fun _ w => (sentiments, S w) |}.

Definition two_links : list str :=
  [py "https://example.org/first"; py "https://example.org/second"].

Definition neutral : result (list SentimentCandidate) :=
  Ok [{| label := py "neutral" |}].
End Demo.

(** ** More ways to read a text and a trace *)

(** [s.rstrip()]; [strip] is [rstrip] after [lstrip]. *)
Definition rstrip (s : str) : str := rev (lstrip (rev s)).

(** A word: a non-empty string without whitespace. *)
Definition is_word (w : str) : Prop :=
  w <> [] /\ Forall (fun c => isspace c = false) w.

(** The summaries the summarizer gave: the text of the first candidate of
    every call that had one, in order. *)
Definition success_of (ev : Event) : list str :=
  match ev with
  | Summarize _ _ _ _ (Ok (candidate :: _)) => [summary_text candidate]
  | _ => []
  end.
Definition successes (tr : list Event) : list str := flat_map success_of tr.

(** The result [r] is backed by the trace: the sentiment pipeline was
    called on the first 500 characters of its summary and the label of the
    first candidate it returned is the sentiment of [r]. *)
Definition backed (tr : list Event) (r : SummaryResult) : Prop :=
  exists top rest,
    In (Classify (sentiment_input (summary r)) (Ok (top :: rest))) tr
    /\ sentiment r = label top.

(** The calls of a run without what they returned. *)
Inductive Step : Type :=
| Requested (url : str)
| Summarized (chunk : str)
| Classified (input : str).

Definition step_of (ev : Event) : list Step :=
  match ev with
  | Get url _ _ _ => [Requested url]
  | Summarize chunk _ _ _ _ => [Summarized chunk]
  | Classify input _ => [Classified input]
  | LogInfo _ | LogError _ => []
  end.
Definition steps (tr : list Event) : list Step := flat_map step_of tr.

(** The arguments of a call are in order: a request is made with
    [timeout=15]; a summarizer call is greedy, on at most 1000 characters,
    with [3 <= min_length <= max_length]. *)
Definition call_in_order (ev : Event) : Prop :=
  match ev with
  | Get _ _ timeout _ => timeout = 15%Z
  | Summarize chunk max_length min_length do_sample _ =>
      do_sample = false
      /\ length chunk <= 1000
      /\ (3 <= min_length <= max_length)%Z
  | _ => True
  end.

(** An error was logged. *)
Definition is_error (ev : Event) : bool :=
  match ev with
  | LogError _ => true
  | _ => false
  end.

(** ** Start-up and the entry point *)

(** What [__init__] builds [self] with: [nltk.download] and
    [transformers.pipeline].  The latter returns a different kind of object
    for each task, hence one field per task; each takes the model name and
    the device. *)
Record Loader (W : Type) : Type := {
  nltk_download : str -> bool -> W -> result bool * W;
  summarization_pipeline :
    str -> Z -> W ->
    result (str -> Z -> Z -> bool -> W -> result (list SummaryCandidate) * W)
    * W;
  sentiment_pipeline :
    str -> Z -> W ->
    result (str -> W -> result (list SentimentCandidate) * W) * W
}.

(** The events of the whole script: those of start-up, those of
    [process_articles], and the lines printed. *)
Inductive MainEvent : Type :=
| Downloaded (resource : str) (quiet : bool)
| Built (task model : str) (device : Z) (ok : bool)
| LogInitError (e : exn)
| During (ev : Event)
| Printed (line : str).

Record MainRun (W A : Type) : Type := {
  main_outcome : result A;
  main_after : W;
  main_trace : list MainEvent
}.

Definition Main (W A : Type) : Type := W -> MainRun W A.

Definition is_ok {A} (r : result A) : bool :=
  match r with
  | Ok _ => true
  | Raise _ => false
  end.

Section Script.
Context {W : Type}.

Definition main_ret {A} (a : A) : Main W A :=
  fun w => {| main_outcome := Ok a; main_after := w; main_trace := [] |}.

Definition main_emit (ev : MainEvent) : Main W unit :=
  fun w => {| main_outcome := Ok tt; main_after := w; main_trace := [ev] |}.

(** [raise]: the exception being handled goes on. *)
Definition main_raise {A} (e : exn) : Main W A :=
  fun w => {| main_outcome := Raise e; main_after := w; main_trace := [] |}.

Definition main_bind {A B} (m : Main W A) (k : A -> Main W B) : Main W B :=
  fun w =>
    let r := m w in
    match main_outcome r with
    | Ok a =>
        let r' := k a (main_after r) in
        {| main_outcome := main_outcome r'; main_after := main_after r';
           main_trace := main_trace r ++ main_trace r' |}
    | Raise e =>
        {| main_outcome := Raise e; main_after := main_after r;
           main_trace := main_trace r |}
    end.

Definition main_try {A} (body : Main W A) (handler : exn -> Main W A)
  : Main W A :=
  fun w =>
    let r := body w in
    match main_outcome r with
    | Ok a => r
    | Raise e =>
        let r' := handler e (main_after r) in
        {| main_outcome := main_outcome r'; main_after := main_after r';
           main_trace := main_trace r ++ main_trace r' |}
    end.

Definition main_call {A} (f : W -> result A * W)
    (ev : result A -> MainEvent) : Main W A :=
  fun w =>
    let (r, w') := f w in
    {| main_outcome := r; main_after := w'; main_trace := [ev r] |}.



Definition summarization_model : str := py "sshleifer/distilbart-cnn-12-6".
Definition sentiment_model : str :=
  py "cardiffnlp/twitter-xlm-roberta-base-sentiment".

(** Lines 16-39. *)
Definition __init__ (load : Loader W) : Main W (NewsSummarizer W) :=
  main_bind (main_call (nltk_download load (py "punkt") true)
                       (fun _ => Downloaded (py "punkt") true))
    (fun _ =>
  main_bind (main_call (nltk_download load (py "stopwords") true)
                       (fun _ => Downloaded (py "stopwords") true))
    (fun _ =>
  main_try
    (main_bind
       (main_call (summarization_pipeline load summarization_model (-1))
                  (fun r => Built (py "summarization") summarization_model
                                  (-1) (is_ok r)))
       (fun summarizer =>
     main_bind
       (main_call (sentiment_pipeline load sentiment_model (-1))
                  (fun r => Built (py "sentiment-analysis") sentiment_model
                                  (-1) (is_ok r)))
       (fun sentiment_analyzer =>
     main_ret {| summarizer := summarizer;
                 sentiment_analyzer := sentiment_analyzer |})))
    (fun e => main_bind (main_emit (LogInitError e))
                        (fun _ => main_raise e)))).




End Script.


Definition built_task (ev : MainEvent) : list str :=
  match ev with
  | Built task _ _ _ => [task]
  | _ => []
  end.
Definition built (tr : list MainEvent) : list str := flat_map built_task tr.


(** Loaders for the small world. *)
Module DemoStart.
(** Both pipelines load. *)
Definition working : Loader Demo.world :=
  {| nltk_download := fun _ _ w => (Ok true, S w);
     summarization_pipeline :=
       fun _ _ w =>
         (Ok (summarizer
                (Demo.models (Ok [{| summary_text := py "A summary." |}])
                             Demo.neutral)),
          S w);
     sentiment_pipeline :=
       fun _ _ w =>
         (Ok (sentiment_analyzer
                (Demo.models (Ok [{| summary_text := py "A summary." |}])
                             Demo.neutral)),
          S w) |}.

(** The summarization model cannot be loaded. *)
Definition broken : Loader Demo.world :=
  {| nltk_download := fun _ _ w => (Ok true, S w);
     summarization_pipeline :=
       fun _ _ w => (Raise (External (py "no such model")), S w);
     sentiment_pipeline :=
       fun _ _ w =>
         (Ok (sentiment_analyzer (Demo.models (Ok []) Demo.neutral)), S w) |}.
End DemoStart.

(** * Properties *)

Unset Implicit Arguments.

(** ** Words *)

Lemma flush_length (word : str) (words : list str) :
  length (flush word words) <= S (length words)
  /\ (word = [] -> length (flush word words) = length words).
Proof.
  destruct word; simpl; split; intros; try lia; try discriminate.
Qed.

Lemma split_ws_length (s : str) :
  forall word,
    length (split_ws word s) <= S (length s)
    /\ (word = [] -> length (split_ws word s) <= length s).
Proof.
  induction s as [|c rest IH]; intros word; simpl.
  - destruct (flush_length word []) as [H1 H2]. simpl in *. split.
    + lia.
    + intros E. rewrite (H2 E). lia.
  - destruct (isspace c).
    + destruct (IH []) as [_ H0]. specialize (H0 eq_refl).
      destruct (flush_length word (split_ws [] rest)) as [H1 H2]. split.
      * lia.
      * intros E. rewrite (H2 E). lia.
    + destruct (IH (c :: word)) as [H1 _]. split.
      * lia.
      * intros _. lia.
Qed.

Lemma split_length_le (s : str) : length (split s) <= length s.
Proof.
  unfold split. destruct (split_ws_length s []) as [_ H]. now apply H.
Qed.

(** ** Length bounds: the float arithmetic agrees with integer division *)

Lemma scaled_table :
  forallb (fun n => result_is (scaled n float_half) (Z.of_nat n / 2)
                    && result_is (scaled n float_fifth) (Z.of_nat n / 5))
          (seq 0 1001) = true.
Proof. vm_compute. reflexivity. Qed.

Lemma result_is_Ok (r : result Z) (z : Z) : result_is r z = true -> r = Ok z.
Proof.
  destruct r as [a|e]; simpl; intros H; [|discriminate].
  apply Z.eqb_eq in H. now subst.
Qed.

Lemma scaled_floor (n : nat) :
  n <= 1000 ->
  scaled n float_half = Ok (Z.of_nat n / 2)%Z
  /\ scaled n float_fifth = Ok (Z.of_nat n / 5)%Z.
Proof.
  intros Hn.
  assert (In n (seq 0 1001)) as Hin by (apply in_seq; lia).
  pose proof (proj1 (forallb_forall _ _) scaled_table n Hin) as H.
  apply andb_true_iff in H. destruct H as [H1 H2].
  split; now apply result_is_Ok.
Qed.

Lemma bounds_floor (n : nat) :
  n <= 1000 ->
  max_len_of n = Ok (floored_max_length n)
  /\ min_len_of n = Ok (floored_min_length n).
Proof.
  intros Hn. destruct (scaled_floor n Hn) as [H1 H2].
  unfold max_len_of, min_len_of. rewrite H1, H2. now split.
Qed.

(** ** Ranges and windows *)

Section Windows.
Variable A : Type.
Variable size : nat.
Hypothesis size_pos : 0 < size.

Local Abbreviation windows xs :=
  (map (fun i => slice xs i (i + size)) (range 0 (length xs) size)).

Lemma ceil_div_step (i stop : nat) :
  i < stop -> ceil_div (stop - i) size = S (ceil_div (stop - (i + size)) size).
Proof.
  intros Hlt. unfold ceil_div.
  destruct (le_lt_dec size (stop - i)) as [Hge|Hsmall].
  - replace (stop - i + size - 1)
      with ((stop - (i + size) + size - 1) + 1 * size) by lia.
    rewrite Nat.div_add by lia. lia.
  - replace (stop - (i + size)) with 0 by lia.
    replace (stop - i + size - 1) with ((stop - i - 1) + 1 * size) by lia.
    rewrite Nat.div_add by lia.
    rewrite !Nat.div_small by lia. lia.
Qed.

Lemma ceil_div_0 (i stop : nat) : stop <= i -> ceil_div (stop - i) size = 0.
Proof.
  intros Hle. unfold ceil_div. replace (stop - i) with 0 by lia.
  apply Nat.div_small. lia.
Qed.

Lemma range_from_closed (fuel : nat) :
  forall i stop,
    stop - i <= fuel ->
    range_from fuel i stop size
    = map (fun k => i + k * size) (seq 0 (ceil_div (stop - i) size)).
Proof.
  induction fuel as [|fuel IH]; intros i stop Hfuel; simpl.
  - rewrite ceil_div_0 by lia. reflexivity.
  - destruct (Nat.ltb_spec i stop) as [Hlt|Hge].
    + rewrite (ceil_div_step i stop Hlt). simpl. f_equal; [lia|].
      rewrite IH by lia. rewrite <- seq_shift, map_map.
      apply map_ext. intros k. lia.
    + rewrite ceil_div_0 by lia. reflexivity.
Qed.

Lemma range_closed (stop : nat) :
  range 0 stop size = map (fun k => k * size) (seq 0 (ceil_div stop size)).
Proof.
  unfold range. rewrite range_from_closed by lia.
  rewrite Nat.sub_0_r. apply map_ext. intros k. lia.
Qed.

Lemma windows_closed (xs : list A) :
  windows xs
  = map (fun k => firstn size (skipn (k * size) xs))
        (seq 0 (ceil_div (length xs) size)).
Proof.
  rewrite range_closed, map_map.
  apply map_ext. intros k. unfold slice. f_equal. lia.
Qed.

Lemma concat_windows_from (xs : list A) (fuel : nat) :
  forall i,
    length xs - i <= fuel ->
    concat (map (fun i => slice xs i (i + size))
                (range_from fuel i (length xs) size))
    = skipn i xs.
Proof.
  induction fuel as [|fuel IH]; intros i Hfuel; simpl.
  - symmetry. apply skipn_all2. lia.
  - destruct (Nat.ltb_spec i (length xs)) as [Hlt|Hge]; simpl.
    + rewrite IH by lia. unfold slice.
      replace (i + size - i) with size by lia.
      rewrite Nat.add_comm, <- skipn_skipn.
      apply firstn_skipn.
    + symmetry. apply skipn_all2. lia.
Qed.

Lemma concat_windows (xs : list A) : concat (windows xs) = xs.
Proof.
  unfold range. rewrite concat_windows_from by lia.
  reflexivity.
Qed.

Lemma length_windows (xs : list A) :
  length (windows xs) = ceil_div (length xs) size.
Proof. rewrite windows_closed, length_map. apply length_seq. Qed.

Lemma nth_windows (xs : list A) (k : nat) :
  k < ceil_div (length xs) size ->
  nth k (windows xs) [] = firstn size (skipn (k * size) xs).
Proof.
  intros Hk. rewrite windows_closed.
  rewrite (nth_indep _ [] (firstn size (skipn (0 * size) xs)))
    by (rewrite length_map, length_seq; exact Hk).
  rewrite (map_nth (fun k => firstn size (skipn (k * size) xs))).
  rewrite seq_nth by exact Hk. reflexivity.
Qed.

Lemma ceil_div_bounds (n k : nat) :
  k < ceil_div n size <-> k * size < n.
Proof.
  unfold ceil_div. split; intros H.
  - destruct (le_lt_dec n (k * size)) as [Hle|]; [|assumption].
    exfalso.
    assert ((n + size - 1) / size < S k); [|lia].
    apply Nat.Div0.div_lt_upper_bound. nia.
  - change (S k <= (n + size - 1) / size).
    apply Nat.div_le_lower_bound; nia.
Qed.

Lemma length_window (xs : list A) (k : nat) :
  length (firstn size (skipn (k * size) xs))
  = Nat.min size (length xs - k * size).
Proof. rewrite length_firstn, length_skipn. reflexivity. Qed.

Lemma In_windows_length (xs c : list A) :
  In c (windows xs) -> 1 <= length c <= size.
Proof.
  rewrite windows_closed. intros Hin. apply in_map_iff in Hin.
  destruct Hin as (k & <- & Hk). apply in_seq in Hk.
  rewrite length_window.
  assert (k * size < length xs) by (apply ceil_div_bounds; lia).
  lia.
Qed.
End Windows.

(** ** Running the monad *)

Section Runs.
Context {W : Type}.

Lemma bind_ok {A B} (m : M W A) (k : A -> M W B) (w : W) (a : A) :
  outcome (m w) = Ok a ->
  outcome (bind m k w) = outcome (k a (after (m w)))
  /\ after (bind m k w) = after (k a (after (m w)))
  /\ trace (bind m k w) = trace (m w) ++ trace (k a (after (m w))).
Proof. intros H. unfold bind. rewrite H. simpl. auto. Qed.

Lemma try_ok {A} (body : M W A) (h : exn -> M W A) (w : W) (a : A) :
  outcome (body w) = Ok a -> try_except body h w = body w.
Proof. intros H. unfold try_except. now rewrite H. Qed.

Lemma try_raise_outcome {A} (body : M W A) (h : exn -> M W A) (w : W)
    (e : exn) :
  outcome (body w) = Raise e ->
  outcome (try_except body h w) = outcome (h e (after (body w))).
Proof. intros H. unfold try_except. now rewrite H. Qed.

Lemma try_raise_trace {A} (body : M W A) (h : exn -> M W A) (w : W)
    (e : exn) :
  outcome (body w) = Raise e ->
  trace (try_except body h w)
  = trace (body w) ++ trace (h e (after (body w))).
Proof. intros H. unfold try_except. now rewrite H. Qed.

Lemma outcome_bind {A B} (m : M W A) (k : A -> M W B) (w : W) :
  outcome (bind m k w)
  = match outcome (m w) with
    | Ok a => outcome (k a (after (m w)))
    | Raise e => Raise e
    end.
Proof. unfold bind. now destruct (outcome (m w)). Qed.

Lemma trace_bind {A B} (m : M W A) (k : A -> M W B) (w : W) :
  trace (bind m k w)
  = trace (m w) ++ match outcome (m w) with
                   | Ok a => trace (k a (after (m w)))
                   | Raise _ => []
                   end.
Proof.
  unfold bind. destruct (outcome (m w)); simpl; now rewrite ?app_nil_r.
Qed.

Lemma after_bind {A B} (m : M W A) (k : A -> M W B) (w : W) :
  after (bind m k w)
  = match outcome (m w) with
    | Ok a => after (k a (after (m w)))
    | Raise _ => after (m w)
    end.
Proof. unfold bind. now destruct (outcome (m w)). Qed.

Lemma outcome_try {A} (body : M W A) (h : exn -> M W A) (w : W) :
  outcome (try_except body h w)
  = match outcome (body w) with
    | Ok a => Ok a
    | Raise e => outcome (h e (after (body w)))
    end.
Proof. unfold try_except. now destruct (outcome (body w)) eqn:E. Qed.

Lemma trace_try {A} (body : M W A) (h : exn -> M W A) (w : W) :
  trace (try_except body h w)
  = trace (body w) ++ match outcome (body w) with
                      | Ok _ => []
                      | Raise e => trace (h e (after (body w)))
                      end.
Proof.
  unfold try_except. destruct (outcome (body w)); simpl;
    now rewrite ?app_nil_r.
Qed.

Lemma outcome_call {A} (f : W -> result A * W) (ev : result A -> Event)
    (w : W) :
  outcome (call f ev w) = fst (f w).
Proof. unfold call. now destruct (f w). Qed.

Lemma trace_call {A} (f : W -> result A * W) (ev : result A -> Event)
    (w : W) :
  trace (call f ev w) = [ev (fst (f w))].
Proof. unfold call. now destruct (f w). Qed.

Lemma for_each_cons {A S} (body : S -> A -> M W S) (x : A) (xs : list A)
    (s : S) :
  for_each (x :: xs) body s = bind (body s x) (for_each xs body).
Proof. reflexivity. Qed.

Lemma for_each_never_raises {A S} (body : S -> A -> M W S) (xs : list A) :
  (forall s x, never_raises (body s x)) ->
  forall s, never_raises (for_each xs body s).
Proof.
  intros Hbody. induction xs as [|x xs IH]; intros s w; simpl.
  - now exists s.
  - destruct (Hbody s x w) as [s' Hs'].
    destruct (bind_ok _ (for_each xs body) w s' Hs') as (-> & _).
    apply IH.
Qed.

Section Invariant.
Variable P : Event -> Prop.

Lemma emits_ret {A} (a : A) : emits_only P (ret (W := W) a).
Proof. intros w. constructor. Qed.

Lemma emits_lift {A} (r : result A) : emits_only P (lift (W := W) r).
Proof. intros w. constructor. Qed.

Lemma emits_emit (ev : Event) : P ev -> emits_only P (emit (W := W) ev).
Proof. intros H w. simpl. auto. Qed.

Lemma emits_call {A} (f : W -> result A * W) (ev : result A -> Event) :
  (forall r, P (ev r)) -> emits_only P (call f ev).
Proof. intros H w. unfold call. destruct (f w). simpl. auto. Qed.

Lemma emits_bind {A B} (m : M W A) (k : A -> M W B) :
  emits_only P m -> (forall a, emits_only P (k a)) ->
  emits_only P (bind m k).
Proof.
  intros Hm Hk w. unfold bind.
  destruct (outcome (m w)) eqn:E; simpl.
  - apply Forall_app. split; [apply Hm | apply Hk].
  - apply Hm.
Qed.

Lemma emits_try {A} (body : M W A) (h : exn -> M W A) :
  emits_only P body -> (forall e, emits_only P (h e)) ->
  emits_only P (try_except body h).
Proof.
  intros Hb Hh w. unfold try_except.
  destruct (outcome (body w)) eqn:E; simpl.
  - apply Hb.
  - apply Forall_app. split; [apply Hb | apply Hh].
Qed.

Lemma emits_for_each {A S} (body : S -> A -> M W S) (xs : list A) :
  (forall s x, In x xs -> emits_only P (body s x)) ->
  forall s, emits_only P (for_each xs body s).
Proof.
  induction xs as [|x xs IH]; intros Hbody s; simpl.
  - apply emits_ret.
  - apply emits_bind.
    + apply Hbody. now left.
    + intros s'. apply IH. intros s'' y Hy. apply Hbody. now right.
Qed.
End Invariant.
End Runs.

(** ** Links of a feed *)

Lemma add_link_app (article_urls : list str) (item : Element) :
  add_link article_urls item = article_urls ++ add_link [] item.
Proof.
  unfold add_link.
  destruct (find_child (py "link") item) as [link|];
    [destruct (element_text link) as [t|]; [destruct (truthy t)|]|];
    simpl; now rewrite ?app_nil_r.
Qed.

Lemma fold_add_link (items : list Element) :
  forall article_urls,
    fold_left add_link items article_urls
    = article_urls ++ flat_map (add_link []) items.
Proof.
  induction items as [|item items IH]; intros acc; simpl.
  - now rewrite app_nil_r.
  - rewrite IH, (add_link_app acc item), <- app_assoc. reflexivity.
Qed.

Lemma item_links_flat_map (items : list Element) :
  item_links items = flat_map (add_link []) items.
Proof. unfold item_links. now rewrite fold_add_link. Qed.

Lemma add_link_nonempty (item : Element) :
  Forall (fun url => url <> []) (add_link [] item).
Proof.
  unfold add_link.
  destruct (find_child (py "link") item) as [link|]; [|constructor].
  destruct (element_text link) as [t|]; [|constructor].
  destruct t as [|c t]; simpl; [constructor|].
  constructor; [discriminate|constructor].
Qed.

Lemma item_links_nonempty (items : list Element) :
  Forall (fun url => url <> []) (item_links items).
Proof.
  rewrite item_links_flat_map.
  induction items as [|item items IH]; simpl.
  - constructor.
  - apply Forall_app. split; [apply add_link_nonempty | exact IH].
Qed.

Lemma add_link_skips (item : Element) :
  no_usable_link item -> add_link [] item = [].
Proof.
  unfold no_usable_link, add_link.
  destruct (find_child (py "link") item) as [link|]; [|reflexivity].
  destruct (element_text link) as [t|]; [|reflexivity].
  now intros ->.
Qed.

Lemma item_links_skip (before after : list Element) (item : Element) :
  no_usable_link item ->
  item_links (before ++ item :: after)
  = item_links before ++ item_links after.
Proof.
  intros H. rewrite !item_links_flat_map, flat_map_app. simpl.
  now rewrite (add_link_skips item H).
Qed.

(** ** The two fetchers *)

Ltac run :=
  unfold bind, try_except, call, lift, ret, emit; simpl.

Section Fetchers.
Context {W : Type} (plat : Platform W).

Lemma extraction_fails_iff (url : str) (w : W) :
  extraction_fails plat url w
  <-> exists e, outcome (extract_body plat url w) = Raise e.
Proof.
  unfold extraction_fails, extract_body. run.
  destruct (requests_get plat url article_headers 15 w) as [[resp|e] w'];
    simpl.
  - destruct (raise_for_status resp) as [[]|e]; simpl.
    + destruct (BeautifulSoup plat (text resp)) as [soup|e]; simpl.
      * split; [tauto | intros [e H]; discriminate].
      * split; eauto.
    + split; eauto.
  - split; eauto.
Qed.

Lemma extract_body_requests (url : str) (w : W) :
  requests (trace (extract_body plat url w)) = [url].
Proof.
  unfold extract_body. run.
  destruct (requests_get plat url article_headers 15 w) as [[resp|e] w'];
    simpl; [|reflexivity].
  destruct (raise_for_status resp) as [[]|e]; simpl; [|reflexivity].
  destruct (BeautifulSoup plat (text resp)) as [soup|e]; reflexivity.
Qed.

Lemma extract_never_raises (url : str) :
  never_raises (_extract_article_text plat url).
Proof.
  intros w. unfold _extract_article_text.
  destruct (outcome (extract_body plat url w)) as [t|e] eqn:E.
  - exists t. now rewrite (try_ok _ _ _ _ E).
  - exists []. now rewrite (try_raise_outcome _ _ _ _ E).
Qed.

Lemma extract_failure (url : str) (w : W) :
  extraction_fails plat url w ->
  outcome (_extract_article_text plat url w) = Ok [].
Proof.
  intros H. apply extraction_fails_iff in H. destruct H as [e E].
  unfold _extract_article_text.
  now rewrite (try_raise_outcome _ _ _ _ E).
Qed.

Lemma extract_requests (url : str) (w : W) :
  requests (trace (_extract_article_text plat url w)) = [url].
Proof.
  unfold _extract_article_text.
  destruct (outcome (extract_body plat url w)) as [t|e] eqn:E.
  - rewrite (try_ok _ _ _ _ E). apply extract_body_requests.
  - rewrite (try_raise_trace _ _ _ _ E).
    unfold requests. rewrite flat_map_app.
    fold (requests (trace (extract_body plat url w))).
    rewrite extract_body_requests. reflexivity.
Qed.

Lemma extract_emits (P : Event -> Prop) (url : str) :
  (forall r, P (Get url article_headers 15 r)) ->
  (forall e, P (LogError (ErrorExtracting url e))) ->
  emits_only P (_extract_article_text plat url).
Proof.
  intros Hget Hlog. unfold _extract_article_text, extract_body.
  apply emits_try.
  - apply emits_bind; [now apply emits_call|]. intros resp.
    apply emits_bind; [apply emits_lift|]. intros _.
    apply emits_bind; [apply emits_lift|]. intros soup.
    apply emits_ret.
  - intros e. apply emits_bind; [now apply emits_emit|].
    intros _. apply emits_ret.
Qed.
End Fetchers.

(** ** Dicts *)

Lemma str_eqb_eq (a b : str) : str_eqb a b = true <-> a = b.
Proof.
  revert b. induction a as [|x a IH]; intros [|y b]; simpl;
    try (split; [discriminate | discriminate]); [tauto|].
  rewrite andb_true_iff, N.eqb_eq, IH. split.
  - intros [-> ->]. reflexivity.
  - intros E. injection E as -> ->. auto.
Qed.

Lemma keys_app {V} (d d' : dict V) : keys (d ++ d') = keys d ++ keys d'.
Proof. apply map_app. Qed.

Lemma dict_set_fresh {V} (d : dict V) (k : str) (v : V) :
  ~ In k (keys d) -> dict_set d k v = d ++ [(k, v)].
Proof.
  induction d as [|[k' v'] d IH]; simpl; intros Hk; [reflexivity|].
  destruct (str_eqb k' k) eqn:E.
  - apply str_eqb_eq in E. tauto.
  - rewrite IH by tauto. reflexivity.
Qed.

Lemma dict_get_In {V} (d : dict V) (k : str) (v : V) :
  NoDup (keys d) -> In (k, v) d -> dict_get d k = Some v.
Proof.
  induction d as [|[k' v'] d IH]; simpl; intros Hnd Hin; [tauto|].
  inversion Hnd as [|? ? Hk' Hnd']; subst.
  destruct (str_eqb k' k) eqn:E.
  - apply str_eqb_eq in E. subst k'. destruct Hin as [Heq|Hin].
    + congruence.
    + exfalso. apply Hk'. unfold keys. apply in_map_iff.
      now exists (k, v).
  - destruct Hin as [Heq|Hin].
    + injection Heq as -> ->.
      assert (str_eqb k k = true) by now apply str_eqb_eq.
      congruence.
    + now apply IH.
Qed.

Lemma dict_set_links_nonempty (d : dict (list str)) (k : str)
    (links : list str) :
  links_nonempty d -> Forall (fun url => url <> []) links ->
  links_nonempty (dict_set d k links).
Proof.
  unfold links_nonempty. intros Hd Hl.
  induction d as [|[k' v'] d IH]; simpl.
  - constructor; [exact Hl | constructor].
  - inversion Hd; subst. destruct (str_eqb k' k).
    + constructor; assumption.
    + constructor; [assumption | now apply IH].
Qed.

(** ** The feed fetcher *)

Section FeedFetcher.
Context {W : Type} (plat : Platform W).

Lemma fetch_fails_iff (url : str) (w : W) :
  fetch_fails plat url w
  <-> exists e, outcome (fetch_source_body plat url w) = Raise e.
Proof.
  unfold fetch_fails, fetch_source_body. run.
  destruct (requests_get plat url feed_headers 15 w) as [[resp|e] w'];
    simpl.
  - destruct (raise_for_status resp) as [[]|e]; simpl.
    + destruct (ET_fromstring plat (content resp)) as [root|e]; simpl.
      * split; [tauto | intros [e H]; discriminate].
      * split; eauto.
    + split; eauto.
  - split; eauto.
Qed.

Lemma fetch_source_body_trace (url : str) (w : W) :
  exists r, trace (fetch_source_body plat url w)
            = [Get url feed_headers 15 r].
Proof.
  unfold fetch_source_body. run.
  destruct (requests_get plat url feed_headers 15 w) as [[resp|e] w'];
    simpl; [|eauto].
  destruct (raise_for_status resp) as [[]|e]; simpl; [|eauto].
  destruct (ET_fromstring plat (content resp)) as [root|e]; simpl; eauto.
Qed.

Lemma fetch_source_body_nonempty (url : str) (w : W) (links : list str) :
  outcome (fetch_source_body plat url w) = Ok links ->
  Forall (fun link => link <> []) links.
Proof.
  unfold fetch_source_body. run.
  destruct (requests_get plat url feed_headers 15 w) as [[resp|e] w'];
    simpl; [|discriminate].
  destruct (raise_for_status resp) as [[]|e]; simpl; [|discriminate].
  destruct (ET_fromstring plat (content resp)) as [root|e]; simpl;
    [|discriminate].
  intros H. injection H as <-. apply item_links_nonempty.
Qed.

(** What one call of [_fetch_source] does: it returns a list of
    non-empty links after one request; when a step failed it logs the
    error and the list is empty. *)
Lemma fetch_source_spec (name url : str) (w : W) :
  exists links r logs,
    outcome (_fetch_source plat name url w) = Ok links
    /\ Forall (fun link => link <> []) links
    /\ trace (_fetch_source plat name url w)
       = Get url feed_headers 15 r :: logs
    /\ (logs = []
        \/ exists e, logs = [LogError (ErrorFetching name e)]
                     /\ links = [])
    /\ (fetch_fails plat url w -> links = []).
Proof.
  unfold _fetch_source.
  destruct (fetch_source_body_trace url w) as [r Hr].
  destruct (outcome (fetch_source_body plat url w)) as [links|e] eqn:E.
  - exists links, r, []. rewrite (try_ok _ _ _ _ E).
    repeat split; auto.
    + now apply (fetch_source_body_nonempty url w).
    + intros Hf. apply fetch_fails_iff in Hf. destruct Hf as [e He].
      congruence.
  - exists [], r, [LogError (ErrorFetching name e)].
    rewrite (try_raise_outcome _ _ _ _ E), (try_raise_trace _ _ _ _ E).
    rewrite Hr. repeat split; eauto.
Qed.

Lemma collect_spec (articles : dict (list str)) (name url : str) (w : W) :
  exists links r logs,
    outcome (collect plat articles (name, url) w)
    = Ok (dict_set articles name links)
    /\ Forall (fun link => link <> []) links
    /\ trace (collect plat articles (name, url) w)
       = Get url feed_headers 15 r :: logs
           ++ [LogInfo (FoundArticles (length links) name)]
    /\ (logs = []
        \/ exists e, logs = [LogError (ErrorFetching name e)]
                     /\ links = [])
    /\ (fetch_fails plat url w -> links = []).
Proof.
  destruct (fetch_source_spec name url w)
    as (links & r & logs & Ho & Hne & Ht & Hlogs & Hf).
  exists links, r, logs. unfold collect.
  assert (outcome
            ((source_articles <- _fetch_source plat name url ;;
              let articles := dict_set articles name source_articles in
              emit (LogInfo (FoundArticles (length source_articles) name))
              ;;; ret articles) w)
          = Ok (dict_set articles name links)) as Hbody.
  { unfold bind at 1. rewrite Ho. reflexivity. }
  rewrite (try_ok _ _ _ _ Hbody). repeat split; auto.
  unfold bind at 1. rewrite Ho. simpl. rewrite Ht. reflexivity.
Qed.
End FeedFetcher.

Lemma requests_app (tr tr' : list Event) :
  requests (tr ++ tr') = requests tr ++ requests tr'.
Proof. apply flat_map_app. Qed.

Section FetchLoop.
Context {W : Type} (plat : Platform W).

Lemma fetch_loop (order : list (str * str)) :
  forall (acc : dict (list str)) (w : W),
    NoDup (keys acc ++ keys order) ->
    exists fetched,
      outcome (for_each order (collect plat) acc w) = Ok (acc ++ fetched)
      /\ keys fetched = keys order
      /\ requests (trace (for_each order (collect plat) acc w))
         = values order
      /\ (forall name e,
             In (LogError (ErrorFetching name e))
                (trace (for_each order (collect plat) acc w)) ->
             In (name, []) fetched).
Proof.
  induction order as [|[name url] rest IH]; intros acc w Hnd.
  - exists []. simpl. rewrite app_nil_r. repeat split; auto.
  - destruct (collect_spec plat acc name url w)
      as (links & r & logs & Ho & _ & Ht & Hlogs & _).
    rewrite for_each_cons.
    destruct (bind_ok _ (for_each rest (collect plat)) w _ Ho)
      as (Eo & _ & Et).
    rewrite Eo, Et. clear Eo Et.
    assert (~ In name (keys acc)) as Hfresh.
    { simpl in Hnd. apply NoDup_remove_2 in Hnd.
      intros Hin. apply Hnd. apply in_or_app. now left. }
    rewrite (dict_set_fresh acc name links Hfresh).
    destruct (IH (acc ++ [(name, links)])
                 (after (collect plat acc (name, url) w)))
      as (fetched & Ho' & Hk' & Hr' & Hl').
    { rewrite keys_app. simpl. rewrite <- app_assoc. exact Hnd. }
    exists ((name, links) :: fetched).
    rewrite Ho', requests_app, Hr', Ht, <- app_assoc. simpl.
    repeat split.
    + now rewrite Hk'.
    + f_equal. rewrite requests_app. simpl.
      destruct Hlogs as [-> | (e & -> & _)]; reflexivity.
    + intros k e [Hin|Hin]; [discriminate|].
      apply in_app_or in Hin. destruct Hin as [Hin|Hin].
      * apply in_app_or in Hin. destruct Hin as [Hin|[Hin|[]]];
          [|discriminate].
        destruct Hlogs as [-> | (e' & -> & ->)]; [destruct Hin|].
        destruct Hin as [Hin|[]]. injection Hin as <- _. now left.
      * right. exact (Hl' k e Hin).
Qed.

Lemma fetch_loop_nonempty (order : list (str * str)) :
  forall (acc : dict (list str)) (w : W) (articles : dict (list str)),
    links_nonempty acc ->
    outcome (for_each order (collect plat) acc w) = Ok articles ->
    links_nonempty articles.
Proof.
  induction order as [|[name url] rest IH]; intros acc w articles Hacc.
  - simpl. intros H. injection H as <-. exact Hacc.
  - destruct (collect_spec plat acc name url w)
      as (links & r & logs & Ho & Hne & _).
    rewrite for_each_cons.
    destruct (bind_ok _ (for_each rest (collect plat)) w _ Ho)
      as (-> & _).
    apply IH. now apply dict_set_links_nonempty.
Qed.
End FetchLoop.

(** ** Claims about the feed fetcher *)

(** C4.  For every non-empty source dict and every order in which the
    fetches complete, [fetch_articles] returns a mapping: its keys are
    the source names, so no source is absent; a source for which an error
    was logged maps to the empty list; every feed is requested whatever
    happened to the others; and a fetch that fails in the world where it
    runs stores the empty list under its source name. *)
Theorem fetch_articles_keys_are_sources :
  forall (W : Type) (plat : Platform W) (sources : dict str)
         (order : list (str * str)) (w : W),
    sources <> [] ->
    NoDup (keys sources) ->
    Permutation order sources ->
    exists articles,
      outcome (fetch_articles_from plat sources order w) = Ok articles
      /\ keys articles = keys order
      /\ (forall name, In name (keys articles) <-> In name (keys sources))
      /\ (forall name e,
             In (LogError (ErrorFetching name e))
                (trace (fetch_articles_from plat sources order w)) ->
             dict_get articles name = Some [])
      /\ requests (trace (fetch_articles_from plat sources order w))
         = values order
      /\ (forall acc name url w',
             fetch_fails plat url w' ->
             outcome (collect plat acc (name, url) w')
             = Ok (dict_set acc name [])).
Proof.
  intros W plat sources order w Hne Hnd Hperm.
  assert (Permutation (keys order) (keys sources)) as Hkeys
      by (unfold keys; now apply Permutation_map).
  assert (NoDup (keys order)) as Hnd'
      by (apply (Permutation_NoDup (Permutation_sym Hkeys) Hnd)).
  unfold fetch_articles_from.
  destruct sources as [|s0 sources']; [congruence|]. cbn [length Nat.eqb].
  destruct (fetch_loop plat order [] w Hnd') as (fetched & Ho & Hk & Hr & Hl).
  exists fetched. simpl in Ho. repeat split; auto.
  - intros Hin. rewrite Hk in Hin.
    now apply (Permutation_in _ Hkeys).
  - intros Hin. rewrite Hk.
    now apply (Permutation_in _ (Permutation_sym Hkeys)).
  - intros name e Hin. apply dict_get_In.
    + now rewrite Hk.
    + now apply (Hl name e).
  - intros acc name url w' Hf.
    destruct (collect_spec plat acc name url w')
      as (links & r & logs & Ho' & _ & _ & _ & Hfail).
    rewrite Ho', (Hfail Hf). reflexivity.
Qed.

Lemma get_news_sources_nodup : NoDup (keys get_news_sources).
Proof.
  vm_compute. repeat constructor; simpl; intuition discriminate.
Qed.

(** The sources of the program, every feed timing out, the futures
    completing in reverse order. *)
Lemma fetch_articles_keys_are_sources_witness :
  exists articles,
    outcome (fetch_articles Demo.offline (rev get_news_sources) 0)
    = Ok articles
    /\ keys articles = keys (rev get_news_sources)
    /\ dict_get articles (py "RSS Feed Tech") = Some [].
Proof.
  destruct (fetch_articles_keys_are_sources Demo.world Demo.offline
              get_news_sources (rev get_news_sources) 0)
    as (articles & Ho & Hk & _ & Hlog & _).
  - discriminate.
  - exact get_news_sources_nodup.
  - apply Permutation_sym, Permutation_rev.
  - exists articles. split; [exact Ho|]. split; [exact Hk|].
    apply (Hlog (py "RSS Feed Tech") (External (py "timeout"))).
    vm_compute. auto.
Defined.

(** C9.  No link list of the mapping [fetch_articles] returns holds an
    empty string, nor does any list [_fetch_source] returns; an item
    without a [link] child, or whose [link] has no text or an empty text,
    adds nothing to the list of its feed. *)
Theorem fetched_links_are_nonempty :
  forall (W : Type) (plat : Platform W),
    (forall sources order w articles name links link,
        outcome (fetch_articles_from plat sources order w) = Ok articles ->
        In (name, links) articles -> In link links -> link <> [])
    /\ (forall name url w links link,
           outcome (_fetch_source plat name url w) = Ok links ->
           In link links -> link <> [])
    /\ (forall before item after,
           no_usable_link item ->
           item_links (before ++ item :: after)
           = item_links before ++ item_links after).
Proof.
  intros W plat. split; [|split].
  - intros sources order w articles name links link Ho Hin Hlink.
    unfold fetch_articles_from in Ho.
    destruct (Nat.eqb (length sources) 0); [discriminate|].
    assert (links_nonempty articles) as Hall.
    { apply (fetch_loop_nonempty plat order [] w); [constructor | exact Ho]. }
    unfold links_nonempty in Hall. rewrite Forall_forall in Hall.
    specialize (Hall _ Hin). simpl in Hall. rewrite Forall_forall in Hall.
    now apply Hall.
  - intros name url w links link Ho Hlink.
    destruct (fetch_source_spec plat name url w)
      as (links' & _ & _ & Ho' & Hne & _).
    rewrite Ho in Ho'. injection Ho' as <-.
    rewrite Forall_forall in Hne. now apply Hne.
  - intros before item after. apply item_links_skip.
Qed.

(** A feed of two links fetched for the four sources of the program, and
    an item without a [link] child. *)
Lemma fetched_links_are_nonempty_witness :
  truthy (py "https://example.org/first") = true
  /\ item_links [Elem (py "item") None [Elem (py "title") None []]] = [].
Proof.
  destruct (fetched_links_are_nonempty Demo.world
              (Demo.online Demo.two_links []))
    as (Hmap & _ & Hskip).
  split.
  - assert (py "https://example.org/first" <> []) as Hne.
    { apply (Hmap get_news_sources get_news_sources 0
               (map (fun source => (fst source, Demo.two_links))
                    get_news_sources)
               (py "RSS Feed World") Demo.two_links).
      - vm_compute. reflexivity.
      - left. reflexivity.
      - left. reflexivity. }
    destruct (py "https://example.org/first"); [congruence | reflexivity].
  - apply (Hskip [] (Elem (py "item") None [Elem (py "title") None []]) []).
    vm_compute. exact I.
Defined.

(** ** The chunk loop *)

Lemma summarized_app (tr tr' : list Event) :
  summarized (tr ++ tr') = summarized tr ++ summarized tr'.
Proof. apply flat_map_app. Qed.

Lemma slice_to_firstn {A} (n : Z) (xs : list A) :
  (0 <= n)%Z -> slice_to n xs = firstn (Z.to_nat n) xs.
Proof.
  intros Hn. unfold slice_to. destruct (Z.leb_spec 0 n); [reflexivity|lia].
Qed.

Section Chunks.
Context {W : Type} (self : NewsSummarizer W).

Lemma try_never_raises {A} (body : M W A) (h : exn -> M W A) :
  (forall e, never_raises (h e)) -> never_raises (try_except body h).
Proof.
  intros Hh w. destruct (outcome (body w)) as [a|e] eqn:E.
  - exists a. now rewrite (try_ok _ _ _ _ E).
  - rewrite (try_raise_outcome _ _ _ _ E). apply Hh.
Qed.

Lemma summarize_chunk_never_raises (summaries : list str) (chunk : str) :
  never_raises (summarize_chunk self summaries chunk).
Proof.
  apply try_never_raises. intros e w. now exists summaries.
Qed.

(** A chunk whose call yields no candidate leaves [summaries] as it
    was. *)
Lemma summarize_chunk_failed (summaries : list str) (chunk : str) (w : W) :
  Forall summarize_failed (trace (summarize_chunk self summaries chunk w)) ->
  outcome (summarize_chunk self summaries chunk w) = Ok summaries.
Proof.
  unfold summarize_chunk. run.
  destruct (max_len_of (length (split chunk))) as [mx|e]; simpl;
    [|reflexivity].
  destruct (min_len_of (length (split chunk))) as [mn|e]; simpl;
    [|reflexivity].
  destruct (summarizer self chunk mx mn false w) as [[[|c cs]|e] w'];
    simpl; try reflexivity.
  intros H. inversion H as [|? ? Hc _]. destruct Hc.
Qed.

(** What one iteration does with a chunk of at most 1000 characters:
    one call, with the floored bounds. *)
Lemma summarize_chunk_trace (summaries : list str) (chunk : str) (w : W) :
  length chunk <= 1000 ->
  exists r logs,
    trace (summarize_chunk self summaries chunk w)
    = Summarize chunk (floored_max_length (length (split chunk)))
                (floored_min_length (length (split chunk))) false r
      :: logs
    /\ (logs = [] \/ exists e, logs = [LogError (SummarizationError e)]).
Proof.
  intros Hlen.
  assert (length (split chunk) <= 1000) as Hw
      by (pose proof (split_length_le chunk); lia).
  destruct (bounds_floor _ Hw) as [Hmax Hmin].
  unfold summarize_chunk. run. rewrite Hmax, Hmin. simpl.
  destruct (summarizer self chunk _ _ false w) as [[[|c cs]|e] w'];
    simpl; do 2 eexists; (split; [reflexivity|]); eauto.
Qed.

Lemma summarize_chunk_emits (P : Event -> Prop) (summaries : list str)
    (chunk : str) :
  length chunk <= 1000 ->
  (forall r, P (Summarize chunk
                  (floored_max_length (length (split chunk)))
                  (floored_min_length (length (split chunk))) false r)) ->
  (forall e, P (LogError (SummarizationError e))) ->
  emits_only P (summarize_chunk self summaries chunk).
Proof.
  intros Hlen Hcall Hlog w.
  destruct (summarize_chunk_trace summaries chunk w Hlen)
    as (r & logs & -> & Hlogs).
  constructor; [apply Hcall|].
  destruct Hlogs as [-> | (e & ->)]; repeat constructor. apply Hlog.
Qed.

Lemma chunk_loop_never_raises (chunks : list str) (summaries : list str) :
  never_raises (for_each chunks (summarize_chunk self) summaries).
Proof.
  apply for_each_never_raises. apply summarize_chunk_never_raises.
Qed.

Lemma chunk_loop_all_failed (chunks : list str) :
  forall (summaries : list str) (w : W),
    Forall summarize_failed
           (trace (for_each chunks (summarize_chunk self) summaries w)) ->
    outcome (for_each chunks (summarize_chunk self) summaries w)
    = Ok summaries.
Proof.
  induction chunks as [|chunk chunks IH]; intros summaries w Hall.
  - reflexivity.
  - rewrite for_each_cons in *.
    destruct (summarize_chunk_never_raises summaries chunk w) as [s' Hs'].
    destruct (bind_ok _ (for_each chunks (summarize_chunk self)) w _ Hs')
      as (Eo & _ & Et).
    rewrite Et in Hall. apply Forall_app in Hall. destruct Hall as [H1 H2].
    rewrite (summarize_chunk_failed summaries chunk w H1) in Hs'.
    injection Hs' as <-. rewrite Eo. now apply IH.
Qed.

(** Every chunk is handed to the summarizer, in order, whatever
    happened to the chunks before it. *)
Lemma chunk_loop_summarized (chunks : list str) :
  forall (summaries : list str) (w : W),
    Forall (fun chunk => length chunk <= 1000) chunks ->
    summarized (trace (for_each chunks (summarize_chunk self) summaries w))
    = chunks.
Proof.
  induction chunks as [|chunk chunks IH]; intros summaries w Hlen.
  - reflexivity.
  - inversion Hlen as [|? ? Hc Hcs]; subst.
    rewrite for_each_cons.
    destruct (summarize_chunk_never_raises summaries chunk w) as [s' Hs'].
    destruct (bind_ok _ (for_each chunks (summarize_chunk self)) w _ Hs')
      as (_ & _ & ->).
    rewrite summarized_app, (IH _ _ Hcs).
    destruct (summarize_chunk_trace summaries chunk w Hc)
      as (r & logs & -> & Hlogs).
    destruct Hlogs as [-> | (e & ->)]; reflexivity.
Qed.
End Chunks.

Lemma chunks_of_bounded (text : str) :
  Forall (fun chunk => length chunk <= 1000) (chunks_of text).
Proof.
  apply Forall_forall. intros chunk Hin.
  assert (0 < chunk_size) as Hpos by (unfold chunk_size; lia).
  pose proof (In_windows_length char chunk_size Hpos text chunk Hin) as H.
  unfold chunk_size in H. lia.
Qed.

(** ** One article *)

Section Articles.
Context {W : Type} (plat : Platform W) (self : NewsSummarizer W).

(** After a non-empty list of summaries: one call of the sentiment
    pipeline, on the truncated joined summary. *)
Lemma finish_article_trace (results : list SummaryResult)
    (summaries : list str) (w : W) :
  summaries <> [] ->
  trace (finish_article self results summaries w)
  = [Classify (sentiment_input (join (py " ") summaries))
       (fst (sentiment_analyzer self
               (sentiment_input (join (py " ") summaries)) w))].
Proof.
  destruct summaries as [|s ss]; [congruence|]. intros _.
  unfold finish_article. rewrite trace_bind, trace_call, outcome_call.
  destruct (fst (sentiment_analyzer self _ w)) as [cands|e];
    [|reflexivity].
  rewrite trace_bind. unfold lift, ret. cbn [outcome trace].
  now destruct (first_item cands).
Qed.

(** What [finish_article] returns: the results it was given, with one
    more at the end when the list of summaries is not empty and the
    sentiment pipeline has a first candidate. *)
Lemma finish_article_outcome (results : list SummaryResult)
    (summaries : list str) (w : W) :
  outcome (finish_article self results summaries w)
  = match summaries with
    | [] => Ok results
    | _ :: _ =>
        match fst (sentiment_analyzer self
                     (sentiment_input (join (py " ") summaries)) w) with
        | Ok (top :: _) =>
            Ok (results ++ [{| summary := join (py " ") summaries;
                               sentiment := label top |}])
        | Ok [] => Raise IndexError
        | Raise e => Raise e
        end
    end.
Proof.
  destruct summaries as [|s ss]; [reflexivity|].
  unfold finish_article. rewrite outcome_bind, outcome_call.
  destruct (fst (sentiment_analyzer self _ w)) as [[|top cands]|e];
    reflexivity.
Qed.

Lemma process_article_never_raises (results : list SummaryResult)
    (url : str) :
  never_raises (process_article plat self results url).
Proof.
  apply try_never_raises. intros e w. now exists results.
Qed.

(** An article that the length check skips. *)
Lemma process_article_short (results : list SummaryResult) (url : str)
    (w : W) (text : str) :
  outcome (_extract_article_text plat url w) = Ok text ->
  too_short text = true ->
  outcome (process_article plat self results url w) = Ok results
  /\ trace (process_article plat self results url w)
     = trace (_extract_article_text plat url w).
Proof.
  intros Ht Hs. unfold process_article.
  rewrite outcome_try, trace_try, outcome_bind, trace_bind, Ht.
  cbv beta iota. rewrite Hs. unfold ret. cbn [outcome trace].
  now rewrite !app_nil_r.
Qed.

(** An article that passes the length check: the chunk loop, then
    [finish_article]; an exception of the latter is logged and leaves
    the results as they were. *)
Lemma process_article_long (results : list SummaryResult) (url : str)
    (w w' : W) (text : str) (summaries : list str) :
  outcome (_extract_article_text plat url w) = Ok text ->
  too_short text = false ->
  outcome (for_each (chunks_of text) (summarize_chunk self) []
                    (after (_extract_article_text plat url w)))
  = Ok summaries ->
  w' = after (for_each (chunks_of text) (summarize_chunk self) []
                       (after (_extract_article_text plat url w))) ->
    outcome (process_article plat self results url w)
    = match outcome (finish_article self results summaries w') with
      | Ok results' => Ok results'
      | Raise _ => Ok results
      end
    /\ trace (process_article plat self results url w)
       = trace (_extract_article_text plat url w)
         ++ trace (for_each (chunks_of text) (summarize_chunk self) []
                            (after (_extract_article_text plat url w)))
         ++ trace (finish_article self results summaries w')
         ++ match outcome (finish_article self results summaries w') with
            | Ok _ => []
            | Raise e => [LogError (ErrorProcessing url e)]
            end.
Proof.
  intros Ht Hs Hl ->. unfold process_article.
  rewrite outcome_try, trace_try, outcome_bind, trace_bind, after_bind, Ht.
  cbv beta iota zeta. rewrite Hs.
  rewrite outcome_bind, trace_bind, after_bind, Hl.
  split.
  - destruct (outcome (finish_article self results summaries _));
      reflexivity.
  - rewrite <- !app_assoc. reflexivity.
Qed.
End Articles.

(** ** The shape of a run *)

Section Shape.
Context {W : Type} (plat : Platform W) (self : NewsSummarizer W).
Variable P : Event -> Prop.
Hypothesis P_get : forall url headers r, P (Get url headers 15 r).
Hypothesis P_info : forall m, P (LogInfo m).
Hypothesis P_error : forall m, P (LogError m).
Hypothesis P_summarize :
  forall chunk r,
    length chunk <= 1000 ->
    P (Summarize chunk (floored_max_length (length (split chunk)))
                 (floored_min_length (length (split chunk))) false r).
Hypothesis P_classify :
  forall final_summary r, P (Classify (sentiment_input final_summary) r).

Lemma chunk_loop_emits (text : str) (summaries : list str) :
  emits_only P (for_each (chunks_of text) (summarize_chunk self) summaries).
Proof.
  apply emits_for_each. intros s chunk Hin.
  pose proof (chunks_of_bounded text) as Hall.
  rewrite Forall_forall in Hall.
  apply summarize_chunk_emits; auto.
Qed.

Lemma finish_article_emits (results : list SummaryResult)
    (summaries : list str) :
  emits_only P (finish_article self results summaries).
Proof.
  intros w. destruct summaries as [|s ss].
  - constructor.
  - rewrite finish_article_trace by discriminate.
    constructor; [apply P_classify | constructor].
Qed.

Lemma process_article_emits (results : list SummaryResult) (url : str) :
  emits_only P (process_article plat self results url).
Proof.
  unfold process_article. apply emits_try.
  - apply emits_bind.
    + apply extract_emits; auto.
    + intros text. destruct (too_short text).
      * apply emits_ret.
      * apply emits_bind; [apply chunk_loop_emits|].
        intros summaries. apply finish_article_emits.
  - intros e. apply emits_bind; [apply emits_emit, P_error|].
    intros _. apply emits_ret.
Qed.

Lemma process_fetched_emits (articles : dict (list str)) (max_articles : Z) :
  emits_only P (process_fetched plat self articles max_articles).
Proof.
  unfold process_fetched. apply emits_for_each. intros results urls _.
  unfold process_urls. apply emits_for_each. intros results' url _.
  apply process_article_emits.
Qed.

Lemma fetch_articles_emits (sources : dict str) (order : list (str * str)) :
  emits_only P (fetch_articles_from plat sources order).
Proof.
  unfold fetch_articles_from.
  destruct (Nat.eqb (length sources) 0); [apply emits_lift|].
  apply emits_for_each. intros articles [name url] _ w.
  destruct (collect_spec plat articles name url w)
    as (links & r & logs & _ & _ & -> & Hlogs & _).
  constructor; [apply P_get|]. apply Forall_app. split.
  - destruct Hlogs as [-> | (e & -> & _)]; repeat constructor.
    apply P_error.
  - repeat constructor. apply P_info.
Qed.

Lemma process_articles_emits (order : list (str * str))
    (max_articles : option Z) :
  emits_only P (process_articles plat self order max_articles).
Proof.
  unfold process_articles. apply emits_bind.
  - apply fetch_articles_emits.
  - intros articles. apply process_fetched_emits.
Qed.
End Shape.

(** ** The requests of a run *)

Lemma no_requests (tr : list Event) :
  Forall (fun ev => requested ev = []) tr -> requests tr = [].
Proof.
  induction 1 as [|ev tr Hev _ IH]; simpl; [reflexivity|].
  now rewrite Hev, IH.
Qed.

Section Requests.
Context {W : Type} (plat : Platform W) (self : NewsSummarizer W).

Lemma chunk_loop_requests (text : str) (w : W) :
  requests (trace (for_each (chunks_of text) (summarize_chunk self) [] w))
  = [].
Proof.
  apply no_requests. apply chunk_loop_emits; reflexivity.
Qed.

Lemma finish_article_requests (results : list SummaryResult)
    (summaries : list str) (w : W) :
  requests (trace (finish_article self results summaries w)) = [].
Proof.
  apply no_requests. apply finish_article_emits; reflexivity.
Qed.

Lemma process_article_requests (results : list SummaryResult) (url : str)
    (w : W) :
  requests (trace (process_article plat self results url w)) = [url].
Proof.
  destruct (extract_never_raises plat url w) as [text Ht].
  destruct (too_short text) eqn:Hs.
  - rewrite (proj2 (process_article_short plat self results url w text
                      Ht Hs)).
    apply extract_requests.
  - destruct (chunk_loop_never_raises self (chunks_of text) []
                (after (_extract_article_text plat url w)))
      as [summaries Hl].
    rewrite (proj2 (process_article_long plat self results url w _ text
                      summaries Ht Hs Hl eq_refl)).
    rewrite !requests_app, extract_requests, chunk_loop_requests,
      finish_article_requests.
    now destruct (outcome (finish_article self results summaries _)).
Qed.

Lemma article_loop_requests (urls : list str) :
  forall (results : list SummaryResult) (w : W),
    requests (trace (for_each urls (process_article plat self) results w))
    = urls.
Proof.
  induction urls as [|url urls IH]; intros results w.
  - reflexivity.
  - rewrite for_each_cons, trace_bind, requests_app,
      process_article_requests.
    destruct (process_article_never_raises plat self results url w)
      as [results' ->].
    now rewrite IH.
Qed.

Lemma process_urls_never_raises (max_articles : Z)
    (results : list SummaryResult) (urls : list str) :
  never_raises (process_urls plat self max_articles results urls).
Proof.
  apply for_each_never_raises. apply process_article_never_raises.
Qed.

Lemma process_fetched_requests_from (max_articles : Z)
    (lists : list (list str)) :
  forall (results : list SummaryResult) (w : W),
    requests (trace (for_each lists (process_urls plat self max_articles)
                              results w))
    = flat_map (slice_to max_articles) lists.
Proof.
  induction lists as [|urls lists IH]; intros results w.
  - reflexivity.
  - rewrite for_each_cons, trace_bind, requests_app.
    unfold process_urls at 1. rewrite article_loop_requests.
    destruct (process_urls_never_raises max_articles results urls w)
      as [results' ->].
    now rewrite IH.
Qed.

End Requests.

(** ** Claims about the orchestrator *)

(** C7.  For every fetched mapping and every cap, the article pages
    requested are, source after source, the slice [urls[:max_articles]] of
    the source's links, in feed order: for a cap that is not negative, its
    first [max_articles] links.  With two links and a cap of 1 only the
    first link is requested.  A call without a cap uses 5. *)
Theorem only_first_max_articles_are_attempted :
  forall (W : Type) (plat : Platform W) (self : NewsSummarizer W),
    (forall articles max_articles w,
        requests (trace (process_fetched plat self articles max_articles w))
        = flat_map (slice_to max_articles) (values articles))
    /\ (forall (max_articles : Z) (urls : list str),
           (0 <= max_articles)%Z ->
           slice_to max_articles urls = firstn (Z.to_nat max_articles) urls)
    /\ (forall name link1 link2 w,
           requests (trace (process_fetched plat self
                              [(name, [link1; link2])] 1 w))
           = [link1])
    /\ (forall order w,
           process_articles plat self order None w
           = process_articles plat self order (Some 5%Z) w)
    /\ (forall order max_articles w articles,
           outcome (fetch_articles plat order w) = Ok articles ->
           requests (trace (process_articles plat self order
                              (Some max_articles) w))
           = requests (trace (fetch_articles plat order w))
             ++ flat_map (slice_to max_articles) (values articles)).
Proof.
  intros W plat self.
  assert (forall articles max_articles w,
             requests (trace (process_fetched plat self articles
                                max_articles w))
             = flat_map (slice_to max_articles) (values articles)) as Hreq.
  { intros articles max_articles w. unfold process_fetched.
    apply process_fetched_requests_from. }
  split; [exact Hreq|]. split; [|split; [|split]].
  - intros max_articles urls. apply slice_to_firstn.
  - intros name link1 link2 w. rewrite Hreq. reflexivity.
  - reflexivity.
  - intros order max_articles w articles Ho. unfold process_articles.
    rewrite trace_bind, Ho, requests_app, Hreq. reflexivity.
Qed.

(** Two links, a cap of 1, articles of sixty words. *)
Lemma only_first_max_articles_are_attempted_witness :
  slice_to 1 Demo.two_links = [py "https://example.org/first"]
  /\ requests
       (trace (process_articles (Demo.online Demo.two_links (Demo.words 60))
                 (Demo.models (Ok [{| summary_text := py "A summary." |}])
                              Demo.neutral)
                 get_news_sources (Some 1%Z) 0))
     = values get_news_sources
       ++ concat (repeat [py "https://example.org/first"] 4).
Proof.
  destruct (only_first_max_articles_are_attempted Demo.world
              (Demo.online Demo.two_links (Demo.words 60))
              (Demo.models (Ok [{| summary_text := py "A summary." |}])
                           Demo.neutral))
    as (_ & Hslice & _ & _ & Hrun).
  split.
  - rewrite Hslice by lia. reflexivity.
  - rewrite (Hrun get_news_sources 1%Z 0
               (map (fun s => (fst s, Demo.two_links)) get_news_sources))
      by (vm_compute; reflexivity).
    vm_compute. reflexivity.
Defined.

Lemma no_calls (tr : list Event) :
  Forall (fun ev => summarized_chunk ev = [] /\ classified_input ev = []) tr ->
  summarized tr = [] /\ classified tr = [].
Proof.
  induction 1 as [|ev tr [Hs Hc] _ [IHs IHc]]; simpl; [now split|].
  now rewrite Hs, Hc, IHs, IHc.
Qed.

Lemma too_short_iff (text : str) :
  too_short text = true <-> length (split text) < 50.
Proof.
  unfold too_short. destruct text as [|c text].
  - simpl. split; [lia | reflexivity].
  - cbn [truthy negb orb]. apply Nat.ltb_lt.
Qed.

(** C3.  An article whose extracted text has fewer than 50 words leaves
    the result list as it was, and neither pipeline is called for it; the
    empty text is such a text; a text of exactly 50 words passes the
    length check and a text of 49 words does not. *)
Theorem short_articles_yield_no_result :
  forall (W : Type) (plat : Platform W) (self : NewsSummarizer W),
    (forall results url w text,
        outcome (_extract_article_text plat url w) = Ok text ->
        length (split text) < 50 ->
        outcome (process_article plat self results url w) = Ok results
        /\ summarized (trace (process_article plat self results url w)) = []
        /\ classified (trace (process_article plat self results url w)) = [])
    /\ too_short [] = true
    /\ (forall text, length (split text) = 50 -> too_short text = false)
    /\ (forall text, length (split text) = 49 -> too_short text = true).
Proof.
  intros W plat self. split; [|split; [|split]].
  - intros results url w text Ht Hw.
    apply too_short_iff in Hw.
    destruct (process_article_short plat self results url w text Ht Hw)
      as [Ho Htr].
    split; [exact Ho|]. rewrite Htr.
    apply no_calls. apply extract_emits; intros; split; reflexivity.
  - reflexivity.
  - intros text Hw. destruct (too_short text) eqn:E; [|reflexivity].
    apply too_short_iff in E. lia.
  - intros text Hw. apply too_short_iff. lia.
Qed.

(** An article of 49 words, and texts of 50 and of 49 words. *)
Lemma short_articles_yield_no_result_witness :
  outcome (process_article (Demo.online [] (Demo.words 49))
             (Demo.models (Ok [{| summary_text := py "A summary." |}])
                          Demo.neutral)
             [] (py "https://example.org/first") 0)
  = Ok []
  /\ too_short (Demo.words 50) = false
  /\ too_short (Demo.words 49) = true.
Proof.
  destruct (short_articles_yield_no_result Demo.world
              (Demo.online [] (Demo.words 49))
              (Demo.models (Ok [{| summary_text := py "A summary." |}])
                           Demo.neutral))
    as (Hshort & _ & H50 & H49).
  split; [|split].
  - apply (Hshort [] (py "https://example.org/first") 0 (Demo.words 49)).
    + vm_compute. reflexivity.
    + apply Nat.ltb_lt. vm_compute. reflexivity.
  - apply H50. vm_compute. reflexivity.
  - apply H49. vm_compute. reflexivity.
Defined.

(** C8.  [_extract_article_text] never raises.  When a step of the
    extraction fails it returns the empty string, the article leaves the
    result list as it was, and the loop goes on with the links that
    follow; no article ever makes the loop over the links raise. *)
Theorem extraction_failure_skips_article :
  forall (W : Type) (plat : Platform W) (self : NewsSummarizer W),
    (forall url, never_raises (_extract_article_text plat url))
    /\ (forall url w,
           extraction_fails plat url w ->
           outcome (_extract_article_text plat url w) = Ok []
           /\ (forall results,
                  outcome (process_article plat self results url w)
                  = Ok results)
           /\ (forall results rest,
                  outcome (for_each (url :: rest) (process_article plat self)
                                    results w)
                  = outcome (for_each rest (process_article plat self) results
                               (after (process_article plat self results
                                                       url w)))))
    /\ (forall results urls,
           never_raises (for_each urls (process_article plat self) results))
    /\ (forall results urls w,
           requests (trace (for_each urls (process_article plat self)
                                     results w))
           = urls).
Proof.
  intros W plat self. split; [|split; [|split]].
  - apply extract_never_raises.
  - intros url w Hfail.
    pose proof (extract_failure plat url w Hfail) as Hempty.
    assert (forall results,
               outcome (process_article plat self results url w)
               = Ok results) as Hskip.
    { intros results.
      now apply (process_article_short plat self results url w []). }
    split; [exact Hempty|]. split; [exact Hskip|].
    intros results rest.
    rewrite for_each_cons, outcome_bind, Hskip. reflexivity.
  - intros results urls. apply for_each_never_raises.
    apply process_article_never_raises.
  - intros results urls w. apply article_loop_requests.
Qed.

(** Every request times out. *)
Lemma extraction_failure_skips_article_witness :
  outcome (_extract_article_text Demo.offline
             (py "https://example.org/first") 0)
  = Ok []
  /\ outcome (process_article Demo.offline
                (Demo.models (Ok []) Demo.neutral) []
                (py "https://example.org/first") 0)
     = Ok [].
Proof.
  destruct (extraction_failure_skips_article Demo.world Demo.offline
              (Demo.models (Ok []) Demo.neutral))
    as (_ & Hfail & _).
  destruct (Hfail (py "https://example.org/first") 0) as (H1 & H2 & _).
  - vm_compute. exact I.
  - split; [exact H1 | apply H2].
Defined.

Lemma flat_map_nil {A B} (f : A -> list B) (xs : list A) :
  Forall (fun x => f x = []) xs -> flat_map f xs = [].
Proof.
  induction 1 as [|x xs Hx _ IH]; simpl; [reflexivity|].
  now rewrite Hx, IH.
Qed.

Section Summaries.
Context {W : Type} (plat : Platform W) (self : NewsSummarizer W).

Lemma extract_summarized (url : str) (w : W) :
  summarized (trace (_extract_article_text plat url w)) = [].
Proof.
  apply flat_map_nil. apply extract_emits; reflexivity.
Qed.

Lemma finish_article_summarized (results : list SummaryResult)
    (summaries : list str) (w : W) :
  summarized (trace (finish_article self results summaries w)) = [].
Proof.
  apply flat_map_nil. apply finish_article_emits; reflexivity.
Qed.

(** An article that passes the length check has every one of its chunks
    handed to the summarizer, in order. *)
Lemma process_article_summarized (results : list SummaryResult)
    (url : str) (w : W) (text : str) :
  outcome (_extract_article_text plat url w) = Ok text ->
  too_short text = false ->
  summarized (trace (process_article plat self results url w))
  = chunks_of text.
Proof.
  intros Ht Hs.
  destruct (chunk_loop_never_raises self (chunks_of text) []
              (after (_extract_article_text plat url w)))
    as [summaries Hl].
  rewrite (proj2 (process_article_long plat self results url w _ text
                    summaries Ht Hs Hl eq_refl)).
  rewrite !summarized_app, extract_summarized, finish_article_summarized.
  rewrite (chunk_loop_summarized self) by apply chunks_of_bounded.
  destruct (outcome (finish_article self results summaries _));
    simpl; now rewrite app_nil_r.
Qed.

Lemma process_article_all_failed (results : list SummaryResult)
    (url : str) (w : W) :
  Forall summarize_failed (trace (process_article plat self results url w)) ->
  outcome (process_article plat self results url w) = Ok results.
Proof.
  intros Hall.
  destruct (extract_never_raises plat url w) as [text Ht].
  destruct (too_short text) eqn:Hs.
  - now apply (process_article_short plat self results url w text).
  - destruct (chunk_loop_never_raises self (chunks_of text) []
                (after (_extract_article_text plat url w)))
      as [summaries Hl].
    destruct (process_article_long plat self results url w _ text
                summaries Ht Hs Hl eq_refl) as [Ho Htr].
    rewrite Htr in Hall. apply Forall_app in Hall. destruct Hall as [_ Hall].
    apply Forall_app in Hall. destruct Hall as [Hloop _].
    rewrite (chunk_loop_all_failed self _ _ _ Hloop) in Hl.
    injection Hl as <-. rewrite Ho. reflexivity.
Qed.
End Summaries.

(** C5.  When every summarizer call made for an article yields no
    candidate, the article leaves the result list as it was: no result is
    appended, with or without a summary.  A chunk whose call fails leaves
    the summaries as they were and the loop goes on: it never raises, and
    every chunk of the article is handed to the summarizer. *)
Theorem all_chunks_failing_yields_no_result :
  forall (W : Type) (plat : Platform W) (self : NewsSummarizer W),
    (forall results url w,
        Forall summarize_failed
               (trace (process_article plat self results url w)) ->
        outcome (process_article plat self results url w) = Ok results)
    /\ (forall summaries chunk w,
           Forall summarize_failed
                  (trace (summarize_chunk self summaries chunk w)) ->
           outcome (summarize_chunk self summaries chunk w) = Ok summaries)
    /\ (forall chunks summaries,
           never_raises (for_each chunks (summarize_chunk self) summaries))
    /\ (forall text summaries w,
           summarized (trace (for_each (chunks_of text) (summarize_chunk self)
                                       summaries w))
           = chunks_of text)
    /\ (forall results url w text,
           outcome (_extract_article_text plat url w) = Ok text ->
           too_short text = false ->
           summarized (trace (process_article plat self results url w))
           = chunks_of text).
Proof.
  intros W plat self. split; [|split; [|split; [|split]]].
  - apply process_article_all_failed.
  - apply summarize_chunk_failed.
  - apply chunk_loop_never_raises.
  - intros text summaries w. apply chunk_loop_summarized.
    apply chunks_of_bounded.
  - apply process_article_summarized.
Qed.

(** An article of 300 words, two chunks, and a summarizer that raises. *)
Lemma all_chunks_failing_yields_no_result_witness :
  outcome (process_article (Demo.online [] (Demo.words 300))
             (Demo.models (Raise (External (py "model error"))) Demo.neutral)
             [] (py "https://example.org/first") 0)
  = Ok []
  /\ length (summarized
               (trace (process_article (Demo.online [] (Demo.words 300))
                         (Demo.models (Raise (External (py "model error")))
                                      Demo.neutral)
                         [] (py "https://example.org/first") 0)))
     = 2.
Proof.
  destruct (all_chunks_failing_yields_no_result Demo.world
              (Demo.online [] (Demo.words 300))
              (Demo.models (Raise (External (py "model error")))
                           Demo.neutral))
    as (Hnone & _ & _ & _ & Hall).
  split.
  - apply Hnone. vm_compute. repeat constructor.
  - rewrite (Hall [] (py "https://example.org/first") 0 (Demo.words 300))
      by (vm_compute; reflexivity).
    vm_compute. reflexivity.
Defined.

(** ** Claims about the sentiment input and the summary bounds *)

Lemma sentiment_input_firstn (final_summary : str) :
  sentiment_input final_summary = firstn 500 final_summary.
Proof.
  unfold sentiment_input. rewrite slice_to_firstn by lia. reflexivity.
Qed.

(** C6.  The text handed to the sentiment pipeline is the first 500
    characters of the final summary: a prefix of it, the whole of it when
    it has 500 characters or fewer, exactly 500 characters when it is
    longer.  The truncation cannot fail, and in every run of
    [process_articles] every call of the sentiment pipeline has an input of
    at most 500 characters. *)
Theorem sentiment_input_is_truncated :
  (forall final_summary : str,
      sentiment_input final_summary = firstn 500 final_summary
      /\ length (sentiment_input final_summary)
         = Nat.min 500 (length final_summary)
      /\ length (sentiment_input final_summary) <= 500
      /\ (length final_summary <= 500 ->
          sentiment_input final_summary = final_summary)
      /\ (500 < length final_summary ->
          length (sentiment_input final_summary) = 500)
      /\ exists rest,
          final_summary = sentiment_input final_summary ++ rest)
  /\ (forall (W : Type) (plat : Platform W) (self : NewsSummarizer W),
         (forall results summaries w,
             summaries <> [] ->
             classified (trace (finish_article self results summaries w))
             = [sentiment_input (join (py " ") summaries)])
         /\ (forall order max_articles w,
                Forall classify_input_bounded
                       (trace (process_articles plat self order
                                                max_articles w)))).
Proof.
  assert (forall s : str, length (sentiment_input s) = Nat.min 500 (length s))
    as Hlen by (intros s; rewrite sentiment_input_firstn; apply length_firstn).
  split.
  - intros s. split; [apply sentiment_input_firstn|].
    split; [apply Hlen|]. split; [rewrite Hlen; lia|].
    split; [|split].
    + intros Hs. rewrite sentiment_input_firstn. now apply firstn_all2.
    + intros Hs. rewrite Hlen. lia.
    + exists (skipn 500 s). rewrite sentiment_input_firstn.
      symmetry. apply firstn_skipn.
  - intros W plat self. split.
    + intros results summaries w Hne.
      rewrite (finish_article_trace self results summaries w Hne).
      reflexivity.
    + intros order max_articles w.
      apply process_articles_emits; try (intros; exact I).
      intros s r. unfold classify_input_bounded. rewrite Hlen. lia.
Qed.

(** A summary of 200 words, 999 characters. *)
Lemma sentiment_input_is_truncated_witness :
  length (sentiment_input (Demo.words 200)) = 500
  /\ sentiment_input (Demo.words 50) = Demo.words 50.
Proof.
  destruct sentiment_input_is_truncated as [Hpure _].
  split.
  - apply (Hpure (Demo.words 200)). apply Nat.ltb_lt. vm_compute. reflexivity.
  - apply (Hpure (Demo.words 50)). apply Nat.leb_le. vm_compute. reflexivity.
Defined.

(** C1, as the code has it.  In every run of [process_articles] every call
    of the summarizer, on a chunk of [w] words, has [max_length =
    max(5, floor(w / 2))] and [min_length = max(3, floor(w / 5))]: the
    products are truncated by [int], not rounded.  The float arithmetic
    gives these values for every word count a chunk can have.  For 1 word
    the bounds are 5 and 3, for 100 words 50 and 20, for 6 words 5 and
    3. *)
Theorem summarizer_bounds_are_floored :
  (forall (W : Type) (plat : Platform W) (self : NewsSummarizer W)
          order max_articles w,
      Forall bounds_floored
             (trace (process_articles plat self order max_articles w)))
  /\ (forall w : nat,
         w <= 1000 ->
         max_len_of w = Ok (Z.max 5 (Z.of_nat w / 2))
         /\ min_len_of w = Ok (Z.max 3 (Z.of_nat w / 5)))
  /\ (max_len_of 1 = Ok 5%Z /\ min_len_of 1 = Ok 3%Z)
  /\ (max_len_of 100 = Ok 50%Z /\ min_len_of 100 = Ok 20%Z)
  /\ (max_len_of 6 = Ok 5%Z /\ min_len_of 6 = Ok 3%Z).
Proof.
  split; [|split; [|split; [|split]]].
  - intros W plat self order max_articles w.
    apply process_articles_emits; try (intros; exact I).
    intros chunk r _. split; reflexivity.
  - intros w Hw. apply (bounds_floor w Hw).
  - split; vm_compute; reflexivity.
  - split; vm_compute; reflexivity.
  - split; vm_compute; reflexivity.
Qed.

Lemma summarizer_bounds_are_floored_witness :
  max_len_of 59 = Ok 29%Z /\ min_len_of 59 = Ok 11%Z.
Proof.
  destruct summarizer_bounds_are_floored as (_ & Hw & _).
  apply (Hw 59). apply Nat.leb_le. vm_compute. reflexivity.
Defined.

(** C1, as the specification words it, fails: a chunk of 59 words gets
    [max_length = 29] and [min_length = 11], while [round(29.5)] is 30 and
    [round(11.8)] is 12. *)
Lemma summarizer_bounds_are_not_rounded :
  (max_len_of 59 = Ok 29%Z /\ rounded_max_length 59 = 30%Z)
  /\ (min_len_of 59 = Ok 11%Z /\ rounded_min_length 59 = 12%Z)
  /\ ~ Forall bounds_rounded
         (trace (process_article (Demo.online [] (Demo.words 59))
                   (Demo.models (Ok [{| summary_text := py "A summary." |}])
                                Demo.neutral)
                   [] (py "https://example.org/first") 0)).
Proof.
  split; [split; vm_compute; reflexivity|].
  split; [split; vm_compute; reflexivity|].
  intros Hall. rewrite Forall_forall in Hall.
  specialize (Hall (Summarize (Demo.words 59) 29 11 false
                      (Ok [{| summary_text := py "A summary." |}]))).
  assert (29%Z = rounded_max_length (length (split (Demo.words 59)))
          /\ 11%Z = rounded_min_length (length (split (Demo.words 59))))
    as [Hmax _].
  { apply Hall. vm_compute. right. left. reflexivity. }
  vm_compute in Hmax. discriminate.
Qed.

(** C10.  There is a run of [process_articles] whose result list holds an
    element with an empty summary.  The append is gated on the list of
    chunk summaries being non-empty, not on the joined text: whenever that
    list is non-empty and the sentiment pipeline has a first candidate, a
    result is appended, and the join of one empty summary is the empty
    string. *)
Theorem empty_summary_result_is_appended :
  (exists (plat : Platform Demo.world) (self : NewsSummarizer Demo.world)
          order max_articles w results r,
      outcome (process_articles plat self order max_articles w) = Ok results
      /\ In r results
      /\ summary r = [])
  /\ (forall (W : Type) (self : NewsSummarizer W) results summaries w
             top rest,
         summaries <> [] ->
         fst (sentiment_analyzer self
                (sentiment_input (join (py " ") summaries)) w)
         = Ok (top :: rest) ->
         outcome (finish_article self results summaries w)
         = Ok (results ++ [{| summary := join (py " ") summaries;
                              sentiment := label top |}]))
  /\ join (py " ") [[]] = [].
Proof.
  split; [|split].
  - exists (Demo.online Demo.two_links (Demo.words 60)),
           (Demo.models (Ok [{| summary_text := [] |}]) Demo.neutral),
           get_news_sources, (Some 1%Z), 0,
           (repeat {| summary := []; sentiment := py "neutral" |} 4),
           {| summary := []; sentiment := py "neutral" |}.
    split; [vm_compute; reflexivity|]. split; [now left | reflexivity].
  - intros W self results summaries w top rest Hne Hcall.
    rewrite finish_article_outcome, Hcall.
    destruct summaries; [congruence | reflexivity].
  - reflexivity.
Qed.

(** One chunk summary, empty, and a sentiment pipeline that answers. *)
Lemma empty_summary_result_is_appended_witness :
  outcome (finish_article
             (Demo.models (Ok [{| summary_text := [] |}]) Demo.neutral)
             [] [[]] 0)
  = Ok [{| summary := []; sentiment := py "neutral" |}].
Proof.
  destruct empty_summary_result_is_appended as (_ & Hgate & _).
  apply (Hgate Demo.world
           (Demo.models (Ok [{| summary_text := [] |}]) Demo.neutral)
           [] [[]] 0 {| label := py "neutral" |} []).
  - discriminate.
  - reflexivity.
Defined.

(** ** Claim about the chunking *)

Lemma chunk_size_pos : 0 < chunk_size.
Proof. unfold chunk_size. lia. Qed.

(** C2.  The chunks of a text, a function of the text alone, are its
    consecutive windows of 1000 characters: chunk [k] is
    [text[1000k : 1000k + 1000]]; put end to end the chunks give the text
    back; none is empty, every chunk but the last has exactly 1000
    characters, the last one at most 1000; and there are
    [ceil(len(text) / 1000)] of them, the least [n] with
    [len(text) <= 1000 n]. *)
Theorem chunks_are_consecutive_windows :
  forall text : str,
    concat (chunks_of text) = text
    /\ length (chunks_of text) = ceil_div (length text) 1000
    /\ (forall k,
           k < length (chunks_of text) ->
           nth k (chunks_of text) [] = firstn 1000 (skipn (k * 1000) text)
           /\ nth k (chunks_of text) [] = slice text (k * 1000) (k * 1000 + 1000)
           /\ 1 <= length (nth k (chunks_of text) []) <= 1000)
    /\ (forall k,
           S k < length (chunks_of text) ->
           length (nth k (chunks_of text) []) = 1000)
    /\ (forall n, length text <= n * 1000 <-> length (chunks_of text) <= n).
Proof.
  intros text.
  pose proof (length_windows char chunk_size chunk_size_pos text) as Hcount.
  pose proof (ceil_div_bounds chunk_size chunk_size_pos (length text))
    as Hceil.
  assert (forall k,
             k < length (chunks_of text) ->
             nth k (chunks_of text) []
             = firstn 1000 (skipn (k * 1000) text)) as Hnth.
  { intros k Hk.
    apply (nth_windows char chunk_size chunk_size_pos text k).
    unfold chunks_of in Hk. now rewrite Hcount in Hk. }
  assert (forall k,
             k < length (chunks_of text) -> k * 1000 < length text) as Hin.
  { intros k Hk. apply Hceil. unfold chunks_of in Hk.
    now rewrite Hcount in Hk. }
  split; [|split; [|split; [|split]]].
  - apply (concat_windows char chunk_size chunk_size_pos text).
  - exact Hcount.
  - intros k Hk. split; [now apply Hnth|]. split.
    + rewrite (Hnth k Hk). unfold slice. f_equal. lia.
    + rewrite (Hnth k Hk), length_firstn, length_skipn.
      specialize (Hin k Hk). lia.
  - intros k Hk.
    rewrite (Hnth k) by lia. rewrite length_firstn, length_skipn.
    specialize (Hin (S k) Hk). lia.
  - intros n. unfold chunks_of. rewrite Hcount.
    specialize (Hceil n). unfold chunk_size in *.
    set (c := ceil_div (length text) 1000) in *. lia.
Qed.

(** A text of 2500 characters: chunks of 1000, 1000 and 500. *)
Lemma chunks_are_consecutive_windows_witness :
  map (@length char) (chunks_of (repeat space 2500)) = [1000; 1000; 500]
  /\ length (nth 1 (chunks_of (repeat space 2500)) []) = 1000.
Proof.
  split; [vm_compute; reflexivity|].
  destruct (chunks_are_consecutive_windows (repeat space 2500))
    as (_ & _ & _ & Hfull & _).
  apply (Hfull 1). apply Nat.ltb_lt. vm_compute. reflexivity.
Defined.

(** * Further properties *)

(** ** Whitespace: [strip], [re.sub] and [split] *)

Lemma lstrip_app (x y : str) :
  lstrip (x ++ y)
  = match lstrip x with
    | [] => lstrip y
    | _ :: _ => lstrip x ++ y
    end.
Proof.
  induction x as [|c x IH]; simpl.
  - reflexivity.
  - destruct (isspace c); [exact IH | reflexivity].
Qed.

Lemma rstrip_app (a b : str) :
  rstrip (a ++ b)
  = match rstrip b with
    | [] => rstrip a
    | _ :: _ => a ++ rstrip b
    end.
Proof.
  unfold rstrip. rewrite rev_app_distr, lstrip_app.
  destruct (lstrip (rev b)) as [|c l].
  - reflexivity.
  - rewrite rev_app_distr, rev_involutive. simpl rev.
    destruct (rev l ++ [c]) eqn:E; [|reflexivity].
    destruct (rev l); discriminate.
Qed.

Lemma rstrip_rev_word (word : str) :
  Forall (fun c => isspace c = false) word -> rstrip (rev word) = rev word.
Proof.
  intros Hw. unfold rstrip. rewrite rev_involutive.
  destruct Hw as [|c word Hc _]; simpl; [reflexivity|].
  now rewrite Hc.
Qed.

Lemma lstrip_collapse_run (s : str) :
  lstrip (collapse_ws true s) = collapse_ws true s.
Proof.
  induction s as [|c s IH]; simpl; [reflexivity|].
  destruct (isspace c) eqn:E; [exact IH|].
  simpl. now rewrite E.
Qed.

Lemma lstrip_collapse (s : str) :
  lstrip (collapse_ws false s) = collapse_ws true s.
Proof.
  destruct s as [|c s]; simpl; [reflexivity|].
  destruct (isspace c) eqn:E.
  - simpl. apply lstrip_collapse_run.
  - simpl. now rewrite E.
Qed.

Lemma flush_words (word : str) (words : list str) :
  Forall (fun c => isspace c = false) word ->
  Forall is_word words -> Forall is_word (flush word words).
Proof.
  intros Hw Hws. destruct word as [|c word]; simpl; [exact Hws|].
  constructor; [|exact Hws]. split.
  - destruct (rev word); discriminate.
  - change (rev word ++ [c]) with (rev (c :: word)). now apply Forall_rev.
Qed.

Lemma split_ws_words (s : str) :
  forall word,
    Forall (fun c => isspace c = false) word ->
    Forall is_word (split_ws word s).
Proof.
  induction s as [|c s IH]; intros word Hw; simpl.
  - apply flush_words; [exact Hw | constructor].
  - destruct (isspace c) eqn:E.
    + apply flush_words; [exact Hw | apply IH; constructor].
    + apply IH. now constructor.
Qed.

Lemma split_words (s : str) : Forall is_word (split s).
Proof. apply split_ws_words. constructor. Qed.

Lemma join_cons (sep a b : str) (rest : list str) :
  join sep (a :: b :: rest) = a ++ sep ++ join sep (b :: rest).
Proof. reflexivity. Qed.

Lemma join_words_nonempty (w : str) (ws : list str) :
  w <> [] -> join (py " ") (w :: ws) <> [].
Proof.
  intros Hw. destruct w as [|c w]; [congruence|].
  destruct ws; simpl; discriminate.
Qed.

Lemma rstrip_collapse (s : str) :
  (forall word,
      word <> [] ->
      Forall (fun c => isspace c = false) word ->
      rstrip (rev word ++ collapse_ws false s)
      = join (py " ") (split_ws word s))
  /\ rstrip (collapse_ws true s) = join (py " ") (split_ws [] s).
Proof.
  induction s as [|c s [IH1 IH2]].
  - split.
    + intros word Hne Hw. simpl. rewrite app_nil_r.
      destruct word as [|x word]; [congruence|].
      simpl flush. simpl join. now apply rstrip_rev_word.
    + reflexivity.
  - simpl. destruct (isspace c) eqn:E.
    + split; [|exact IH2].
      intros word Hne Hw.
      destruct word as [|x word]; [congruence|]. simpl flush.
      rewrite rstrip_app.
      change (space :: collapse_ws true s)
        with ([space] ++ collapse_ws true s).
      rewrite rstrip_app, IH2.
      pose proof (split_ws_words s [] (Forall_nil _)) as Hws.
      destruct (split_ws [] s) as [|w ws].
      * simpl join. change (rstrip [space]) with (@nil char).
        now apply rstrip_rev_word.
      * inversion Hws as [|? ? [Hw1 _] _]; subst.
        pose proof (join_words_nonempty w ws Hw1) as Hj.
        rewrite join_cons.
        destruct (join (py " ") (w :: ws)) as [|y l]; [congruence|].
        reflexivity.
    + split.
      * intros word Hne Hw.
        replace (rev word ++ c :: collapse_ws false s)
          with (rev (c :: word) ++ collapse_ws false s)
          by (simpl; now rewrite <- app_assoc).
        apply IH1; [discriminate | now constructor].
      * change (c :: collapse_ws false s)
          with (rev [c] ++ collapse_ws false s).
        apply IH1; [discriminate | now repeat constructor].
Qed.

Lemma strip_re_sub_ws (s : str) :
  strip (re_sub_ws s) = join (py " ") (split s).
Proof.
  unfold strip, re_sub_ws. rewrite lstrip_collapse.
  apply (proj2 (rstrip_collapse s)).
Qed.

Lemma split_ws_word_app (w : str) :
  Forall (fun c => isspace c = false) w ->
  forall word s, split_ws word (w ++ s) = split_ws (rev w ++ word) s.
Proof.
  induction 1 as [|c w Hc _ IH]; intros word s; simpl.
  - reflexivity.
  - rewrite Hc, IH, <- app_assoc. reflexivity.
Qed.

Lemma split_join (ws : list str) :
  Forall is_word ws -> split (join (py " ") ws) = ws.
Proof.
  unfold split. induction 1 as [|w ws [Hne Hw] Hws IH]; [reflexivity|].
  assert (forall words, flush (rev w) words = w :: words) as Hflush.
  { intros words. destruct (rev w) as [|c l] eqn:E.
    - apply (f_equal (@rev char)) in E. rewrite rev_involutive in E.
      simpl in E. congruence.
    - unfold flush. now rewrite <- E, rev_involutive. }
  destruct ws as [|w2 ws].
  - simpl join. pose proof (split_ws_word_app w Hw [] []) as Hsplit.
    rewrite !app_nil_r in Hsplit. rewrite Hsplit. simpl. apply Hflush.
  - rewrite join_cons, split_ws_word_app by exact Hw.
    rewrite app_nil_r. change (py " ") with [space] at 1. simpl app.
    cbn [split_ws]. change (isspace space) with true. cbv iota.
    rewrite Hflush. f_equal. exact IH.
Qed.

Lemma extract_body_normal {W : Type} (plat : Platform W) (url : str) (w : W)
    (t : str) :
  outcome (extract_body plat url w) = Ok t ->
  exists raw, t = strip (re_sub_ws raw).
Proof.
  unfold extract_body. run.
  destruct (requests_get plat url article_headers 15 w) as [[resp|e] w'];
    simpl; [|discriminate].
  destruct (raise_for_status resp) as [[]|e]; simpl; [|discriminate].
  destruct (BeautifulSoup plat (text resp)) as [soup|e]; simpl;
    [|discriminate].
  intros H. injection H as <-. eauto.
Qed.

(** X9.  The whitespace clean-up of line 169 returns the words of its
    input joined by single spaces, so it keeps the words and their count.
    Hence the text [_extract_article_text] returns, on success or on
    failure, is its own words joined by single spaces: it has no leading,
    trailing or doubled whitespace. *)
Theorem extracted_text_is_words_joined :
  (forall s, strip (re_sub_ws s) = join (py " ") (split s))
  /\ (forall s, split (strip (re_sub_ws s)) = split s)
  /\ (forall (W : Type) (plat : Platform W) url w,
         exists text,
           outcome (_extract_article_text plat url w) = Ok text
           /\ join (py " ") (split text) = text).
Proof.
  assert (forall s, split (strip (re_sub_ws s)) = split s) as Hsplit.
  { intros s. rewrite strip_re_sub_ws. apply split_join, split_words. }
  split; [exact strip_re_sub_ws|]. split; [exact Hsplit|].
  intros W plat url w. unfold _extract_article_text.
  destruct (outcome (extract_body plat url w)) as [text|e] eqn:E.
  - exists text. rewrite (try_ok _ _ _ _ E). split; [exact E|].
    destruct (extract_body_normal plat url w text E) as [raw ->].
    now rewrite Hsplit, strip_re_sub_ws.
  - exists []. rewrite (try_raise_outcome _ _ _ _ E). now split.
Qed.

(** X10.  Splitting undoes joining: words joined by single spaces split
    back into the same words.  So a text of [n] space-separated words has
    word count [n], and the length check of line 114 skips it exactly when
    [n < 50]. *)
Theorem split_undoes_join :
  forall words : list str,
    Forall is_word words ->
    split (join (py " ") words) = words
    /\ too_short (join (py " ") words) = (length words <? 50).
Proof.
  intros words Hwords.
  pose proof (split_join words Hwords) as Hsplit.
  split; [exact Hsplit|].
  unfold too_short. rewrite Hsplit.
  destruct words as [|w ws]; [reflexivity|].
  inversion Hwords as [|? ? [Hne _] _]; subst.
  pose proof (join_words_nonempty w ws Hne) as Hj.
  destruct (join (py " ") (w :: ws)); [congruence | reflexivity].
Qed.

Lemma split_undoes_join_witness :
  split (Demo.words 49) = repeat (py "word") 49
  /\ too_short (Demo.words 49) = true.
Proof.
  apply (split_undoes_join (repeat (py "word") 49)).
  apply Forall_forall. intros w Hw. apply repeat_spec in Hw. subst w.
  split; [discriminate | repeat constructor].
Defined.

(** ** What a run returns *)

Lemma successes_app (tr tr' : list Event) :
  successes (tr ++ tr') = successes tr ++ successes tr'.
Proof. apply flat_map_app. Qed.

Lemma backed_app_l (tr tr' : list Event) (r : SummaryResult) :
  backed tr r -> backed (tr ++ tr') r.
Proof.
  intros (top & rest & Hin & Hl). exists top, rest. split; [|exact Hl].
  apply in_or_app. now left.
Qed.

Lemma backed_app_r (tr tr' : list Event) (r : SummaryResult) :
  backed tr' r -> backed (tr ++ tr') r.
Proof.
  intros (top & rest & Hin & Hl). exists top, rest. split; [|exact Hl].
  apply in_or_app. now right.
Qed.

Lemma slice_to_bounded {A} (n : Z) (xs : list A) :
  (0 <= n)%Z -> length (slice_to n xs) <= Z.to_nat n.
Proof.
  intros Hn. rewrite slice_to_firstn by exact Hn.
  rewrite length_firstn. lia.
Qed.

Lemma slices_bounded {A} (n : Z) (lists : list (list A)) :
  (0 <= n)%Z ->
  length (flat_map (slice_to n) lists) <= Z.to_nat n * length lists.
Proof.
  intros Hn. induction lists as [|xs lists IH]; simpl; [lia|].
  rewrite length_app. pose proof (slice_to_bounded n xs Hn). lia.
Qed.

Lemma dict_set_length {V} (d : dict V) (k : str) (v : V) :
  length (dict_set d k v) <= S (length d).
Proof.
  induction d as [|[k' v'] d IH]; simpl; [lia|].
  destruct (str_eqb k' k); simpl; lia.
Qed.

Section Results.
Context {W : Type} (plat : Platform W) (self : NewsSummarizer W).

Lemma summarize_chunk_result (summaries : list str) (chunk : str) (w : W) :
  outcome (summarize_chunk self summaries chunk w)
  = Ok (summaries
          ++ successes (trace (summarize_chunk self summaries chunk w))).
Proof.
  unfold summarize_chunk. run.
  destruct (max_len_of (length (split chunk))) as [mx|e]; simpl;
    [|now rewrite app_nil_r].
  destruct (min_len_of (length (split chunk))) as [mn|e]; simpl;
    [|now rewrite app_nil_r].
  destruct (summarizer self chunk mx mn false w) as [[[|c cs]|e] w'];
    simpl; now rewrite ?app_nil_r.
Qed.

Lemma chunk_loop_result (chunks : list str) :
  forall (summaries : list str) (w : W),
    outcome (for_each chunks (summarize_chunk self) summaries w)
    = Ok (summaries
            ++ successes
                 (trace (for_each chunks (summarize_chunk self) summaries w))).
Proof.
  induction chunks as [|chunk chunks IH]; intros summaries w.
  - simpl. now rewrite app_nil_r.
  - rewrite for_each_cons, outcome_bind, trace_bind.
    rewrite summarize_chunk_result, IH, successes_app, app_assoc.
    reflexivity.
Qed.

Lemma extract_successes (url : str) (w : W) :
  successes (trace (_extract_article_text plat url w)) = [].
Proof. apply flat_map_nil. apply extract_emits; reflexivity. Qed.

Lemma finish_article_successes (results : list SummaryResult)
    (summaries : list str) (w : W) :
  successes (trace (finish_article self results summaries w)) = [].
Proof. apply flat_map_nil. apply finish_article_emits; reflexivity. Qed.

(** What one article adds to the results. *)
Lemma process_article_result (results : list SummaryResult) (url : str)
    (w : W) :
  outcome (process_article plat self results url w) = Ok results
  \/ exists top rest,
      outcome (process_article plat self results url w)
      = Ok (results
              ++ [{| summary :=
                       join (py " ")
                         (successes
                            (trace (process_article plat self results url w)));
                     sentiment := label top |}])
      /\ In (Classify
               (sentiment_input
                  (join (py " ")
                     (successes
                        (trace (process_article plat self results url w)))))
               (Ok (top :: rest)))
            (trace (process_article plat self results url w))
      /\ successes (trace (process_article plat self results url w)) <> [].
Proof.
  destruct (extract_never_raises plat url w) as [text Ht].
  destruct (too_short text) eqn:Hs.
  - left. now apply (process_article_short plat self results url w text).
  - pose proof (fun w' summaries =>
                  process_article_long plat self results url w w' text
                    summaries Ht Hs) as Hlong.
    remember (for_each (chunks_of text) (summarize_chunk self) []
                       (after (_extract_article_text plat url w)))
      as loop eqn:Eloop in *.
    assert (outcome loop = Ok (successes (trace loop))) as Hl
        by (subst loop;
            exact (chunk_loop_result (chunks_of text) []
                     (after (_extract_article_text plat url w)))).
    remember (successes (trace loop)) as summaries eqn:Es.
    destruct (Hlong (after loop) summaries Hl eq_refl) as [Ho Htr].
    clear Hlong.
    assert (successes (trace (process_article plat self results url w))
            = summaries) as Hsucc.
    { rewrite Htr, !successes_app, extract_successes,
        finish_article_successes, <- Es.
      destruct (outcome (finish_article self results summaries (after loop)));
        simpl; now rewrite app_nil_r. }
    rewrite Hsucc.
    rewrite finish_article_outcome in Ho.
    destruct summaries as [|s ss]; [now left|].
    pose proof (finish_article_trace self results (s :: ss) (after loop))
      as Hfin.
    destruct (fst (sentiment_analyzer self
                     (sentiment_input (join (py " ") (s :: ss)))
                     (after loop))) as [[|top rest]|e] eqn:Ec;
      [now left | | now left].
    right. exists top, rest. split; [exact Ho|]. split; [|discriminate].
    rewrite Htr. apply in_or_app. right. apply in_or_app. right.
    apply in_or_app. left. rewrite Hfin by discriminate. now left.
Qed.

Lemma process_article_grows (results : list SummaryResult) (url : str)
    (w : W) :
  exists added,
    outcome (process_article plat self results url w) = Ok (results ++ added)
    /\ length added <= 1
    /\ Forall (backed (trace (process_article plat self results url w)))
              added.
Proof.
  destruct (process_article_result results url w)
    as [Ho | (top & rest & Ho & Hin & _)].
  - exists []. rewrite app_nil_r. repeat split; auto.
  - eexists. split; [exact Ho|]. split; [simpl; lia|].
    constructor; [|constructor]. exists top, rest. now split.
Qed.

Lemma article_loop_grows (urls : list str) :
  forall (results : list SummaryResult) (w : W),
    exists added,
      outcome (for_each urls (process_article plat self) results w)
      = Ok (results ++ added)
      /\ length added <= length urls
      /\ Forall (backed (trace (for_each urls (process_article plat self)
                                         results w)))
                added.
Proof.
  induction urls as [|url urls IH]; intros results w.
  - exists []. simpl. rewrite app_nil_r. repeat split; auto.
  - destruct (process_article_grows results url w) as (a1 & Ho1 & Hl1 & Hb1).
    rewrite for_each_cons, outcome_bind, trace_bind, Ho1.
    destruct (IH (results ++ a1) (after (process_article plat self results
                                                         url w)))
      as (a2 & Ho2 & Hl2 & Hb2).
    exists (a1 ++ a2). rewrite Ho2, app_assoc. split; [reflexivity|].
    split; [rewrite length_app; simpl; lia|].
    apply Forall_app. split.
    + eapply Forall_impl; [|exact Hb1]. intros r. apply backed_app_l.
    + eapply Forall_impl; [|exact Hb2]. intros r. apply backed_app_r.
Qed.

Lemma source_loop_grows (max_articles : Z) (lists : list (list str)) :
  forall (results : list SummaryResult) (w : W),
    exists added,
      outcome (for_each lists (process_urls plat self max_articles) results w)
      = Ok (results ++ added)
      /\ length added <= length (flat_map (slice_to max_articles) lists)
      /\ Forall (backed (trace (for_each lists
                                         (process_urls plat self max_articles)
                                         results w)))
                added.
Proof.
  induction lists as [|urls lists IH]; intros results w.
  - exists []. simpl. rewrite app_nil_r. repeat split; auto.
  - destruct (article_loop_grows (slice_to max_articles urls) results w)
      as (a1 & Ho1 & Hl1 & Hb1).
    change (for_each (slice_to max_articles urls) (process_article plat self)
                     results w)
      with (process_urls plat self max_articles results urls w) in *.
    rewrite for_each_cons, outcome_bind, trace_bind, Ho1.
    destruct (IH (results ++ a1)
                 (after (process_urls plat self max_articles results urls w)))
      as (a2 & Ho2 & Hl2 & Hb2).
    exists (a1 ++ a2). rewrite Ho2, app_assoc. split; [reflexivity|].
    split; [simpl; rewrite !length_app; lia|].
    apply Forall_app. split.
    + eapply Forall_impl; [|exact Hb1]. intros r. apply backed_app_l.
    + eapply Forall_impl; [|exact Hb2]. intros r. apply backed_app_r.
Qed.


Lemma collect_never_raises (articles : dict (list str)) (task : str * str) :
  never_raises (collect plat articles task).
Proof.
  destruct task as [name url]. intros w.
  destruct (collect_spec plat articles name url w) as (l & _ & _ & H & _).
  eauto.
Qed.

Lemma fetch_articles_never_raises (order : list (str * str)) :
  never_raises (fetch_articles plat order).
Proof.
  unfold fetch_articles, fetch_articles_from. cbn [length Nat.eqb].
  unfold get_news_sources. cbn [length Nat.eqb].
  apply for_each_never_raises. apply collect_never_raises.
Qed.

Lemma fetch_loop_length (order : list (str * str)) :
  forall (acc : dict (list str)) (w : W) (articles : dict (list str)),
    outcome (for_each order (collect plat) acc w) = Ok articles ->
    length articles <= length acc + length order.
Proof.
  induction order as [|[name url] rest IH]; intros acc w articles.
  - simpl. intros H. injection H as <-. lia.
  - destruct (collect_spec plat acc name url w)
      as (links & r & logs & Ho & _).
    rewrite for_each_cons, outcome_bind, Ho. intros H.
    apply IH in H. pose proof (dict_set_length acc name links).
    simpl. lia.
Qed.
End Results.

(** X1.  [fetch_articles] and [process_articles] never raise: whatever the
    network and the two pipelines do, in whatever order the feeds complete
    and for whatever cap, a run ends normally with a mapping and with a
    list of results. *)
Theorem process_articles_never_raises :
  forall (W : Type) (plat : Platform W) (self : NewsSummarizer W)
         order max_articles w,
    (exists articles, outcome (fetch_articles plat order w) = Ok articles)
    /\ (exists results,
           outcome (process_articles plat self order max_articles w)
           = Ok results).
Proof.
  intros W plat self order max_articles w.
  destruct (fetch_articles_never_raises plat order w) as [articles Ha].
  split; [now exists articles|].
  unfold process_articles. rewrite outcome_bind, Ha.
  unfold process_fetched.
  destruct (source_loop_grows plat self
              (match max_articles with
               | Some n => n
               | None => default_max_articles
               end)
              (values articles) [] (after (fetch_articles plat order w)))
    as (added & Ho & _).
  exists added. exact Ho.
Qed.

(** X2.  A run returns at most one result per article page it requested;
    with a cap that is not negative that is at most [max_articles] results
    for every feed that was fetched. *)
Theorem results_are_bounded_by_the_cap :
  forall (W : Type) (plat : Platform W) (self : NewsSummarizer W),
    (forall articles max_articles w,
        exists results,
          outcome (process_fetched plat self articles max_articles w)
          = Ok results
          /\ length results
             <= length (requests
                          (trace (process_fetched plat self articles
                                                  max_articles w))))
    /\ (forall order max_articles w,
           (0 <= max_articles)%Z ->
           exists results,
             outcome (process_articles plat self order (Some max_articles) w)
             = Ok results
             /\ length results <= Z.to_nat max_articles * length order).
Proof.
  intros W plat self. split.
  - intros articles max_articles w. unfold process_fetched.
    rewrite process_fetched_requests_from.
    destruct (source_loop_grows plat self max_articles (values articles)
                [] w) as (added & Ho & Hl & _).
    exists added. now split.
  - intros order max_articles w Hmax.
    destruct (fetch_articles_never_raises plat order w) as [articles Ha].
    unfold process_articles. rewrite outcome_bind, Ha.
    unfold process_fetched.
    destruct (source_loop_grows plat self max_articles (values articles)
                [] (after (fetch_articles plat order w)))
      as (added & Ho & Hl & _).
    exists added. split; [exact Ho|].
    pose proof (slices_bounded max_articles (values articles) Hmax) as Hs.
    assert (length articles <= length order) as Hlen.
    { unfold fetch_articles, fetch_articles_from in Ha.
      cbn [length Nat.eqb get_news_sources] in Ha.
      apply (fetch_loop_length plat order [] w articles Ha). }
    assert (length (values articles) = length articles) as Hv
        by apply length_map.
    rewrite Hv in Hs.
    pose proof (Nat.mul_le_mono_l _ _ (Z.to_nat max_articles) Hlen).
    lia.
Qed.

(** Two links per feed, a cap of 1, four feeds. *)
Lemma results_are_bounded_by_the_cap_witness :
  exists results,
    outcome (process_articles (Demo.online Demo.two_links (Demo.words 60))
               (Demo.models (Ok [{| summary_text := py "A summary." |}])
                            Demo.neutral)
               get_news_sources (Some 1%Z) 0)
    = Ok results
    /\ length results <= 4.
Proof.
  destruct (results_are_bounded_by_the_cap Demo.world
              (Demo.online Demo.two_links (Demo.words 60))
              (Demo.models (Ok [{| summary_text := py "A summary." |}])
                           Demo.neutral)) as [_ Hcap].
  apply (Hcap get_news_sources 1%Z 0). lia.
Defined.

(** X4.  Every result a run returns is backed by the run: the sentiment
    pipeline was called on the first 500 characters of the result's summary,
    returned at least one candidate, and the label of the first candidate
    is the result's sentiment. *)
Theorem every_result_is_backed :
  forall (W : Type) (plat : Platform W) (self : NewsSummarizer W)
         order max_articles w results,
    outcome (process_articles plat self order max_articles w) = Ok results ->
    Forall (backed (trace (process_articles plat self order max_articles w)))
           results.
Proof.
  intros W plat self order max_articles w results.
  destruct (fetch_articles_never_raises plat order w) as [articles Ha].
  unfold process_articles. rewrite outcome_bind, trace_bind, Ha.
  unfold process_fetched.
  destruct (source_loop_grows plat self
              (match max_articles with
               | Some n => n
               | None => default_max_articles
               end)
              (values articles) [] (after (fetch_articles plat order w)))
    as (added & Ho & _ & Hb).
  rewrite Ho. intros H. injection H as <-.
  eapply Forall_impl; [|exact Hb]. intros r. apply backed_app_r.
Qed.

Lemma every_result_is_backed_witness :
  Forall (backed
            (trace (process_articles
                      (Demo.online Demo.two_links (Demo.words 60))
                      (Demo.models
                         (Ok [{| summary_text := py "A summary." |}])
                         Demo.neutral)
                      get_news_sources (Some 1%Z) 0)))
         (repeat {| summary := py "A summary.";
                    sentiment := py "neutral" |} 4).
Proof.
  apply (every_result_is_backed Demo.world
           (Demo.online Demo.two_links (Demo.words 60))
           (Demo.models (Ok [{| summary_text := py "A summary." |}])
                        Demo.neutral)
           get_news_sources (Some 1%Z) 0).
  vm_compute. reflexivity.
Defined.

(** X5.  The chunk loop returns the summaries it was given followed by the
    first candidate of every call that had one, in chunk order; a chunk
    whose call failed adds nothing.  An article either leaves the results
    as they were or appends one result, whose summary is these summaries
    joined by single spaces and whose sentiment is the label the sentiment
    pipeline returned for the first 500 characters of that summary. *)
Theorem summary_joins_the_successful_chunks :
  forall (W : Type) (plat : Platform W) (self : NewsSummarizer W),
    (forall chunks summaries w,
        outcome (for_each chunks (summarize_chunk self) summaries w)
        = Ok (summaries
                ++ successes (trace (for_each chunks (summarize_chunk self)
                                              summaries w))))
    /\ (forall results url w,
           outcome (process_article plat self results url w) = Ok results
           \/ exists top rest,
               outcome (process_article plat self results url w)
               = Ok (results
                       ++ [{| summary :=
                                join (py " ")
                                  (successes
                                     (trace (process_article plat self
                                               results url w)));
                              sentiment := label top |}])
               /\ In (Classify
                        (sentiment_input
                           (join (py " ")
                              (successes
                                 (trace (process_article plat self results
                                                         url w)))))
                        (Ok (top :: rest)))
                     (trace (process_article plat self results url w))
               /\ successes (trace (process_article plat self results url w))
                  <> []).
Proof.
  intros W plat self. split.
  - intros chunks summaries w. apply chunk_loop_result.
  - apply process_article_result.
Qed.

(** ** The anatomy of one article *)

Lemma steps_app (tr tr' : list Event) :
  steps (tr ++ tr') = steps tr ++ steps tr'.
Proof. apply flat_map_app. Qed.

Section Anatomy.
Context {W : Type} (plat : Platform W) (self : NewsSummarizer W).

(** An article that passes the length check, taken apart: the extraction,
    the chunk loop, the sentiment call, the log record of a failure. *)
Lemma process_article_anatomy (results : list SummaryResult) (url : str)
    (w : W) (text : str) :
  outcome (_extract_article_text plat url w) = Ok text ->
  too_short text = false ->
  exists loop,
    loop = for_each (chunks_of text) (summarize_chunk self) []
                    (after (_extract_article_text plat url w))
    /\ successes (trace (process_article plat self results url w))
       = successes (trace loop)
    /\ outcome (process_article plat self results url w)
       = match outcome (finish_article self results
                          (successes (trace loop)) (after loop)) with
         | Ok results' => Ok results'
         | Raise _ => Ok results
         end
    /\ trace (process_article plat self results url w)
       = trace (_extract_article_text plat url w)
         ++ trace loop
         ++ trace (finish_article self results (successes (trace loop))
                                  (after loop))
         ++ match outcome (finish_article self results
                             (successes (trace loop)) (after loop)) with
            | Ok _ => []
            | Raise e => [LogError (ErrorProcessing url e)]
            end.
Proof.
  intros Ht Hs.
  pose proof (fun w' summaries =>
                process_article_long plat self results url w w' text
                  summaries Ht Hs) as Hlong.
  remember (for_each (chunks_of text) (summarize_chunk self) []
                     (after (_extract_article_text plat url w)))
    as loop eqn:Eloop in *.
  assert (outcome loop = Ok (successes (trace loop))) as Hl
      by (subst loop;
          exact (chunk_loop_result self (chunks_of text) []
                   (after (_extract_article_text plat url w)))).
  destruct (Hlong (after loop) (successes (trace loop)) Hl eq_refl)
    as [Ho Htr].
  exists loop. split; [reflexivity|]. split; [|split; assumption].
  rewrite Htr, !successes_app, extract_successes, finish_article_successes.
  destruct (outcome (finish_article self results (successes (trace loop))
                                    (after loop)));
    simpl; now rewrite app_nil_r.
Qed.

Lemma extract_body_steps (url : str) (w : W) :
  steps (trace (extract_body plat url w)) = [Requested url].
Proof.
  unfold extract_body. run.
  destruct (requests_get plat url article_headers 15 w) as [[resp|e] w'];
    simpl; [|reflexivity].
  destruct (raise_for_status resp) as [[]|e]; simpl; [|reflexivity].
  destruct (BeautifulSoup plat (text resp)) as [soup|e]; reflexivity.
Qed.

Lemma extract_steps (url : str) (w : W) :
  steps (trace (_extract_article_text plat url w)) = [Requested url].
Proof.
  unfold _extract_article_text. rewrite trace_try, steps_app.
  rewrite extract_body_steps.
  now destruct (outcome (extract_body plat url w)).
Qed.

Lemma chunk_loop_steps (chunks : list str) :
  forall (summaries : list str) (w : W),
    Forall (fun chunk => length chunk <= 1000) chunks ->
    steps (trace (for_each chunks (summarize_chunk self) summaries w))
    = map Summarized chunks.
Proof.
  induction chunks as [|chunk chunks IH]; intros summaries w Hlen.
  - reflexivity.
  - inversion Hlen as [|? ? Hc Hcs]; subst.
    rewrite for_each_cons, trace_bind, steps_app.
    destruct (summarize_chunk_never_raises self summaries chunk w)
      as [s' ->].
    rewrite (IH _ _ Hcs).
    destruct (summarize_chunk_trace self summaries chunk w Hc)
      as (r & logs & -> & Hlogs).
    destruct Hlogs as [-> | (e & ->)]; reflexivity.
Qed.

Lemma finish_article_steps (results : list SummaryResult)
    (summaries : list str) (w : W) :
  steps (trace (finish_article self results summaries w))
  = match summaries with
    | [] => []
    | _ :: _ => [Classified (sentiment_input (join (py " ") summaries))]
    end.
Proof.
  destruct summaries as [|s ss]; [reflexivity|].
  rewrite finish_article_trace by discriminate. reflexivity.
Qed.

Lemma extract_classified (url : str) (w : W) :
  classified (trace (_extract_article_text plat url w)) = [].
Proof. apply flat_map_nil. apply extract_emits; reflexivity. Qed.

Lemma chunk_loop_classified (text : str) (summaries : list str) (w : W) :
  classified (trace (for_each (chunks_of text) (summarize_chunk self)
                              summaries w))
  = [].
Proof. apply flat_map_nil. apply chunk_loop_emits; reflexivity. Qed.
End Anatomy.

Lemma not_classified (tr : list Event) (input : str)
    (r : result (list SentimentCandidate)) :
  classified tr = [] -> ~ In (Classify input r) tr.
Proof.
  induction tr as [|ev tr IH]; simpl; [tauto|].
  intros H [Hev|Hin].
  - subst ev. discriminate.
  - apply IH; [|exact Hin].
    destruct (classified_input ev); [exact H | discriminate].
Qed.

Section Caps.
Context {W : Type} (plat : Platform W) (self : NewsSummarizer W).

Lemma zero_cap_loop (lists : list (list str)) :
  forall (results : list SummaryResult) (w : W),
    for_each lists (process_urls plat self 0) results w = ret results w.
Proof.
  induction lists as [|urls lists IH]; intros results w; [reflexivity|].
  rewrite for_each_cons. unfold bind.
  change (process_urls plat self 0 results urls w) with (ret results w).
  cbn [outcome after trace ret]. rewrite IH. reflexivity.
Qed.
End Caps.

Lemma slice_to_prefix {A} (n : Z) (xs : list A) :
  exists rest, xs = slice_to n xs ++ rest.
Proof.
  unfold slice_to. destruct (0 <=? n)%Z; eexists; symmetry;
    apply firstn_skipn.
Qed.

(** X3.  A cap of 0 makes [process_articles] do nothing after the feeds
    are fetched: no call, no log record, no result.  A negative cap does
    not mean none: [urls[:-k]] is every link but the last [k], and these
    are the pages requested.  Whatever the cap, the links attempted are a
    prefix of the source's links. *)
Theorem zero_and_negative_caps :
  forall (W : Type) (plat : Platform W) (self : NewsSummarizer W),
    (forall articles w,
        outcome (process_fetched plat self articles 0 w) = Ok []
        /\ trace (process_fetched plat self articles 0 w) = [])
    /\ (forall name (urls dropped : list str) w,
           dropped <> [] ->
           requests
             (trace (process_fetched plat self [(name, urls ++ dropped)]
                       (- Z.of_nat (length dropped)) w))
           = urls)
    /\ (forall (max_articles : Z) (urls : list str),
           exists rest, urls = slice_to max_articles urls ++ rest).
Proof.
  intros W plat self. split; [|split].
  - intros articles w. unfold process_fetched.
    rewrite zero_cap_loop. now split.
  - intros name urls dropped w Hne. unfold process_fetched.
    rewrite process_fetched_requests_from. simpl. rewrite app_nil_r.
    unfold slice_to.
    assert (0 < length dropped) as Hpos
        by (destruct dropped; [congruence | simpl; lia]).
    destruct (Z.leb_spec 0 (- Z.of_nat (length dropped))); [lia|].
    rewrite length_app.
    replace (length urls + length dropped
             - Z.to_nat (- - Z.of_nat (length dropped)))
      with (length urls + 0) by lia.
    rewrite firstn_app_2. simpl. now rewrite app_nil_r.
  - intros max_articles urls. apply slice_to_prefix.
Qed.

(** Three links and a cap of -1: the first two links are requested. *)
Lemma zero_and_negative_caps_witness :
  requests
    (trace (process_fetched (Demo.online [] (Demo.words 60))
              (Demo.models (Ok [{| summary_text := py "A summary." |}])
                           Demo.neutral)
              [(py "RSS Feed World", Demo.two_links ++ [py "third"])]
              (- Z.of_nat (length [py "third"])) 0))
  = Demo.two_links.
Proof.
  apply (proj1 (proj2 (zero_and_negative_caps Demo.world
                         (Demo.online [] (Demo.words 60))
                         (Demo.models
                            (Ok [{| summary_text := py "A summary." |}])
                            Demo.neutral)))).
  discriminate.
Defined.

(** X6.  When the call of the sentiment pipeline made for an article
    raises, or returns no candidate, the article is dropped although it has
    summaries: the results stay as they were, the error is logged for the
    article's URL, and the loop over the links is not interrupted. *)
Theorem sentiment_failure_drops_the_article :
  forall (W : Type) (plat : Platform W) (self : NewsSummarizer W)
         results url w input r,
    In (Classify input r) (trace (process_article plat self results url w)) ->
    no_candidate r ->
    outcome (process_article plat self results url w) = Ok results
    /\ exists e,
        In (LogError (ErrorProcessing url e))
           (trace (process_article plat self results url w)).
Proof.
  intros W plat self results url w input r Hin Hr.
  destruct (extract_never_raises plat url w) as [text Ht].
  destruct (too_short text) eqn:Hs.
  - destruct (process_article_short plat self results url w text Ht Hs)
      as [_ Htr].
    rewrite Htr in Hin. exfalso.
    apply (not_classified _ input r (extract_classified plat url w) Hin).
  - destruct (process_article_anatomy plat self results url w text Ht Hs)
      as (loop & Eloop & _ & Ho & Htr).
    rewrite Ho, Htr. rewrite Htr in Hin.
    apply in_app_or in Hin. destruct Hin as [Hin|Hin].
    { exfalso.
      apply (not_classified _ input r (extract_classified plat url w) Hin). }
    apply in_app_or in Hin. destruct Hin as [Hin|Hin].
    { exfalso. subst loop.
      apply (not_classified _ input r
               (chunk_loop_classified self text [] _) Hin). }
    rewrite finish_article_outcome in *.
    destruct (successes (trace loop)) as [|s ss].
    { simpl in Hin. contradiction. }
    rewrite (finish_article_trace self results (s :: ss) (after loop))
      in * by discriminate.
    destruct (fst (sentiment_analyzer self
                     (sentiment_input (join (py " ") (s :: ss)))
                     (after loop))) as [[|top rest]|e] eqn:Ec.
    + split; [reflexivity|]. exists IndexError.
      apply in_or_app. right. apply in_or_app. right. simpl. auto.
    + exfalso. simpl in Hin. destruct Hin as [Hin|[]].
      injection Hin as _ <-. exact Hr.
    + split; [reflexivity|]. exists e.
      apply in_or_app. right. apply in_or_app. right. simpl. auto.
Qed.

(** The sentiment pipeline returns an empty list. *)
Lemma sentiment_failure_drops_the_article_witness :
  outcome (process_article (Demo.online [] (Demo.words 60))
             (Demo.models (Ok [{| summary_text := py "A summary." |}])
                          (Ok []))
             [] (py "https://example.org/first") 0)
  = Ok [].
Proof.
  apply (sentiment_failure_drops_the_article Demo.world
           (Demo.online [] (Demo.words 60))
           (Demo.models (Ok [{| summary_text := py "A summary." |}]) (Ok []))
           [] (py "https://example.org/first") 0
           (py "A summary.") (Ok [])).
  - vm_compute. right. right. left. reflexivity.
  - exact I.
Defined.

(** X7.  The calls made for one article come in a fixed sequence: first
    the request of its page; then, when the text passes the length check,
    one summarizer call for every chunk, in chunk order; then one call of
    the sentiment pipeline when at least one chunk had a summary, and none
    otherwise. *)
Theorem article_calls_come_in_sequence :
  forall (W : Type) (plat : Platform W) (self : NewsSummarizer W)
         results url w text,
    outcome (_extract_article_text plat url w) = Ok text ->
    steps (trace (process_article plat self results url w))
    = Requested url
      :: (if too_short text then []
          else
            map Summarized (chunks_of text)
            ++ match successes
                       (trace (process_article plat self results url w)) with
               | [] => []
               | _ :: _ =>
                   [Classified
                      (sentiment_input
                         (join (py " ")
                            (successes
                               (trace (process_article plat self results
                                                       url w)))))]
               end).
Proof.
  intros W plat self results url w text Ht.
  destruct (too_short text) eqn:Hs.
  - destruct (process_article_short plat self results url w text Ht Hs)
      as [_ ->].
    apply extract_steps.
  - destruct (process_article_anatomy plat self results url w text Ht Hs)
      as (loop & Eloop & -> & _ & ->).
    rewrite !steps_app, extract_steps, finish_article_steps.
    subst loop. rewrite chunk_loop_steps by apply chunks_of_bounded.
    simpl. f_equal. f_equal.
    match goal with
    | |- _ ++ steps ?logs = _ =>
        replace (steps logs) with (@nil Step); [apply app_nil_r|]
    end.
    now destruct (outcome (finish_article self results _ _)).
Qed.

(** An article of 300 words: one request, two chunks, one sentiment
    call. *)
Lemma article_calls_come_in_sequence_witness :
  map (fun step => match step with
                   | Requested _ => 0
                   | Summarized _ => 1
                   | Classified _ => 2
                   end)
      (steps (trace (process_article (Demo.online [] (Demo.words 300))
                       (Demo.models
                          (Ok [{| summary_text := py "A summary." |}])
                          Demo.neutral)
                       [] (py "https://example.org/first") 0)))
  = [0; 1; 1; 2].
Proof.
  rewrite (article_calls_come_in_sequence Demo.world
             (Demo.online [] (Demo.words 300))
             (Demo.models (Ok [{| summary_text := py "A summary." |}])
                          Demo.neutral)
             [] (py "https://example.org/first") 0 (Demo.words 300))
    by (vm_compute; reflexivity).
  vm_compute. reflexivity.
Defined.

Lemma floored_bounds_ordered (w : nat) :
  (3 <= floored_min_length w <= floored_max_length w)%Z.
Proof.
  unfold floored_min_length, floored_max_length.
  assert (Z.of_nat w / 5 <= Z.of_nat w / 2)%Z
    by (apply Z.div_le_compat_l; lia).
  lia.
Qed.

(** X8.  In every run every request is made with a timeout of 15, and
    every summarizer call is greedy ([do_sample=False]), on a chunk of at
    most 1000 characters, with [3 <= min_length <= max_length]: the two
    bounds never cross, for any word count. *)
Theorem calls_are_in_order :
  (forall (W : Type) (plat : Platform W) (self : NewsSummarizer W)
          order max_articles w,
      Forall call_in_order
             (trace (process_articles plat self order max_articles w)))
  /\ (forall w : nat,
         (3 <= floored_min_length w <= floored_max_length w)%Z).
Proof.
  split; [|exact floored_bounds_ordered].
  intros W plat self order max_articles w.
  apply process_articles_emits; try (intros; exact I).
  - intros url headers r. reflexivity.
  - intros chunk r Hlen. split; [reflexivity|]. split; [exact Hlen|].
    apply floored_bounds_ordered.
Qed.

(** ** Feeds without items, pages without paragraphs *)

Lemma add_link_length (item : Element) : length (add_link [] item) <= 1.
Proof.
  unfold add_link.
  destruct (find_child (py "link") item) as [link|]; [|simpl; lia].
  destruct (element_text link) as [t|]; [|simpl; lia].
  destruct (truthy t); simpl; lia.
Qed.

Lemma item_links_length (items : list Element) :
  length (item_links items) <= length items.
Proof.
  rewrite item_links_flat_map.
  induction items as [|item items IH]; simpl; [lia|].
  rewrite length_app. pose proof (add_link_length item). lia.
Qed.

Lemma item_links_app (items items' : list Element) :
  item_links (items ++ items') = item_links items ++ item_links items'.
Proof. rewrite !item_links_flat_map. apply flat_map_app. Qed.

(** X11.  A feed that is fetched and parsed is never an error, whatever
    its shape: [_fetch_source] returns the links of its items, at most one
    per item and in document order, and logs no error.  In particular a
    document without any [item] element gives the empty list. *)
Theorem feed_links_follow_the_items :
  forall (W : Type) (plat : Platform W) name url w response root,
    fst (requests_get plat url feed_headers 15 w) = Ok response ->
    raise_for_status response = Ok tt ->
    ET_fromstring plat (content response) = Ok root ->
    outcome (_fetch_source plat name url w)
    = Ok (item_links (findall_descendants (py "item") root))
    /\ existsb is_error (trace (_fetch_source plat name url w)) = false
    /\ length (item_links (findall_descendants (py "item") root))
       <= length (findall_descendants (py "item") root)
    /\ (forall items items',
           item_links (items ++ items')
           = item_links items ++ item_links items')
    /\ (findall_descendants (py "item") root = [] ->
        outcome (_fetch_source plat name url w) = Ok []).
Proof.
  intros W plat name url w response root Hget Hstatus Hparse.
  assert (outcome (_fetch_source plat name url w)
          = Ok (item_links (findall_descendants (py "item") root))
          /\ existsb is_error (trace (_fetch_source plat name url w)) = false)
    as [Ho Htr].
  { unfold _fetch_source, fetch_source_body. run.
    destruct (requests_get plat url feed_headers 15 w) as [r0 w'].
    simpl in Hget. subst r0. simpl. rewrite Hstatus. simpl.
    rewrite Hparse. simpl. now split. }
  split; [exact Ho|]. split; [exact Htr|].
  split; [apply item_links_length|]. split; [apply item_links_app|].
  intros Hnone. rewrite Ho, Hnone. reflexivity.
Qed.

(** A channel without items. *)
Lemma feed_links_follow_the_items_witness :
  outcome (_fetch_source (Demo.online [] []) (py "RSS Feed World")
             (py "https://example.org/feed.xml") 0)
  = Ok []
  /\ existsb is_error
       (trace (_fetch_source (Demo.online [] []) (py "RSS Feed World")
                 (py "https://example.org/feed.xml") 0))
     = false.
Proof.
  destruct (feed_links_follow_the_items Demo.world (Demo.online [] [])
              (py "RSS Feed World") (py "https://example.org/feed.xml") 0
              Demo.response (Demo.feed []))
    as (Ho & Htr & _); try reflexivity.
  split; [exact Ho | exact Htr].
Defined.

(** X12.  A page that is fetched and parsed but has no paragraph with
    text is not an error: [_extract_article_text] returns the empty string
    without logging anything, and the article is skipped, the results
    staying as they were. *)
Theorem page_without_paragraphs_is_skipped :
  forall (W : Type) (plat : Platform W) (self : NewsSummarizer W)
         results url w response soup,
    fst (requests_get plat url article_headers 15 w) = Ok response ->
    raise_for_status response = Ok tt ->
    BeautifulSoup plat (text response) = Ok soup ->
    Forall (fun p => get_text p = []) (find_all (py "p") soup) ->
    outcome (_extract_article_text plat url w) = Ok []
    /\ outcome (process_article plat self results url w) = Ok results
    /\ existsb is_error (trace (process_article plat self results url w))
       = false.
Proof.
  intros W plat self results url w response soup Hget Hstatus Hparse Hp.
  assert (filter truthy (map get_text (find_all (py "p") soup)) = [])
    as Hnone.
  { induction Hp as [|p ps Hp _ IH]; simpl; [reflexivity|].
    now rewrite Hp. }
  assert (outcome (_extract_article_text plat url w) = Ok []
          /\ existsb is_error (trace (_extract_article_text plat url w))
             = false) as [Ho Htr].
  { unfold _extract_article_text, extract_body. run.
    destruct (requests_get plat url article_headers 15 w) as [r0 w'].
    simpl in Hget. subst r0. simpl. rewrite Hstatus. simpl.
    rewrite Hparse. simpl. rewrite Hnone. now split. }
  split; [exact Ho|].
  destruct (process_article_short plat self results url w [] Ho eq_refl)
    as [Hskip ->].
  now split.
Qed.

(** A page whose only paragraph is empty. *)
Lemma page_without_paragraphs_is_skipped_witness :
  outcome (_extract_article_text (Demo.online [] [])
             (py "https://example.org/first") 0)
  = Ok []
  /\ existsb is_error
       (trace (process_article (Demo.online [] [])
                 (Demo.models (Ok []) Demo.neutral) []
                 (py "https://example.org/first") 0))
     = false.
Proof.
  destruct (page_without_paragraphs_is_skipped Demo.world
              (Demo.online [] []) (Demo.models (Ok []) Demo.neutral) []
              (py "https://example.org/first") 0
              Demo.response (Demo.page []))
    as (Ho & _ & Htr); try reflexivity.
  - vm_compute. repeat constructor.
  - split; [exact Ho | exact Htr].
Defined.

(** ** Start-up and the entry point *)

Ltac main_run :=
  unfold main_bind, main_try, main_call, main_emit, main_raise, main_ret;
  simpl.



Section Startup.
Context {W : Type} (load : Loader W).

(** The ways [__init__] can go. *)
Lemma init_cases (w : W) :
  (exists e tr,
      main_outcome (__init__ load w) = Raise e
      /\ main_trace (__init__ load w) = tr
      /\ (tr = [Downloaded (py "punkt") true]
          \/ tr = [Downloaded (py "punkt") true;
                   Downloaded (py "stopwords") true]
          \/ tr = [Downloaded (py "punkt") true;
                   Downloaded (py "stopwords") true;
                   Built (py "summarization") summarization_model (-1) false;
                   LogInitError e]
          \/ tr = [Downloaded (py "punkt") true;
                   Downloaded (py "stopwords") true;
                   Built (py "summarization") summarization_model (-1) true;
                   Built (py "sentiment-analysis") sentiment_model (-1) false;
                   LogInitError e]))
  \/ (exists self,
         main_outcome (__init__ load w) = Ok self
         /\ main_trace (__init__ load w)
            = [Downloaded (py "punkt") true;
               Downloaded (py "stopwords") true;
               Built (py "summarization") summarization_model (-1) true;
               Built (py "sentiment-analysis") sentiment_model (-1) true]).
Proof.
  unfold __init__. main_run.
  destruct (nltk_download load (py "punkt") true w) as [[b1|e] w1]; simpl;
    [|left; exists e; eexists; repeat split; auto].
  destruct (nltk_download load (py "stopwords") true w1) as [[b2|e] w2];
    simpl; [|left; exists e; eexists; repeat split; auto].
  destruct (summarization_pipeline load summarization_model (-1) w2)
    as [[s|e] w3]; simpl;
    [|left; exists e; eexists; repeat split; auto].
  destruct (sentiment_pipeline load sentiment_model (-1) w3)
    as [[a|e] w4]; simpl;
    [|left; exists e; eexists; repeat split; auto 6].
  right. eexists. split; reflexivity.
Qed.

End Startup.

(** X13.  [__init__] re-raises what it logs: if it logged a model
    initialization error, it raises that very exception.  If the
    summarization pipeline cannot be built, the sentiment pipeline is not
    even tried.  If it returns, both resources were downloaded and both
    pipelines built, in that order, and nothing was logged. *)
Theorem init_raises_what_it_logs :
  forall (W : Type) (load : Loader W) (w : W),
    (forall e,
        In (LogInitError e) (main_trace (__init__ load w)) ->
        main_outcome (__init__ load w) = Raise e)
    /\ (In (Built (py "summarization") summarization_model (-1) false)
           (main_trace (__init__ load w)) ->
        built (main_trace (__init__ load w)) = [py "summarization"])
    /\ (forall self,
           main_outcome (__init__ load w) = Ok self ->
           main_trace (__init__ load w)
           = [Downloaded (py "punkt") true;
              Downloaded (py "stopwords") true;
              Built (py "summarization") summarization_model (-1) true;
              Built (py "sentiment-analysis") sentiment_model (-1) true]).
Proof.
  intros W load w.
  destruct (init_cases load w)
    as [(e & tr & Ho & Htr & Hshape) | (self & Ho & Htr)];
    rewrite Ho, Htr; clear Ho Htr.
  - destruct Hshape as [-> | [-> | [-> | ->]]];
      (split; [|split]);
      try (intros self H; discriminate);
      try (intros e' H; vm_compute in H;
           intuition (try discriminate; congruence));
      try (intros H; vm_compute in H;
           intuition (try discriminate; reflexivity)).
  - split; [|split].
    + intros e H. vm_compute in H. intuition discriminate.
    + intros H. vm_compute in H. intuition discriminate.
    + reflexivity.
Qed.

(** The summarization model cannot be loaded. *)
Lemma init_raises_what_it_logs_witness :
  main_outcome (__init__ DemoStart.broken 0)
  = Raise (External (py "no such model"))
  /\ built (main_trace (__init__ DemoStart.broken 0)) = [py "summarization"].
Proof.
  destruct (init_raises_what_it_logs Demo.world DemoStart.broken 0)
    as (Hlog & Hbuilt & _).
  split.
  - apply Hlog. vm_compute. auto.
  - apply Hbuilt. vm_compute. auto.
Defined.

Section EntryPoint.
Context {W : Type} (load : Loader W) (plat : Platform W).




End EntryPoint.


